(** * Pay-package and gross-margin calculator (src/index.tsx)

    A shallow embedding of the calculator's [recalc] pass and of the gauge
    rule, over a model of the page it reads and writes.

    - JavaScript numbers are IEEE 754 binary64 values: [spec_float] with
      53 bits of precision, rounded to nearest even ([SpecFloat]).
    - Field values and text are strings; [parseFloat], [toFixed] and
      [String] on numbers are written out on exact integer arithmetic.
    - The page is a finite map from element ids to elements. *)

From Stdlib Require Import ZArith Bool Ascii String DecimalString Lia.
From Stdlib Require Import Floats.SpecFloat.
From stdpp Require Import gmap strings.

Local Open Scope string_scope.
Local Open Scope Z_scope.

(** ** Numbers *)

Module JS.

Definition number := spec_float.

Definition prec : Z := 53.
Definition emax : Z := 1024.

Definition NaN : number := S754_nan.
Definition Infinity : number := S754_infinity false.
Definition zero : number := S754_zero false.

Definition add : number -> number -> number := SFadd prec emax.
Definition sub : number -> number -> number := SFsub prec emax.
Definition mul : number -> number -> number := SFmul prec emax.
Definition div : number -> number -> number := SFdiv prec emax.

(** The mathematical value of a finite number is [(-1)^s * m * 2^e];
    [scaled k x] is that value times [2^(-k)], an integer whenever [k] is
    at most the exponent. *)
Definition signed (s : bool) (m : Z) : Z := if s then - m else m.

Definition scaled (k : Z) (s : bool) (m : positive) (e : Z) : Z :=
  signed s (Z.pos m * 2 ^ (e - k)).

(** Comparison of the values, as IEEE 754 orders them: NaN is unordered,
    the two zeros are equal. On canonical values this is [SFcompare]
    (lemma [compare_SFcompare]); it compares the values themselves, so it
    needs no assumption on how a number is represented. *)
Definition compare (x y : number) : option comparison :=
  match x, y with
  | S754_nan, _ | _, S754_nan => None
  | S754_infinity s1, S754_infinity s2 =>
      Some (match s1, s2 with
            | true, false => Lt
            | false, true => Gt
            | _, _ => Eq
            end)
  | S754_infinity s, _ => Some (if s then Lt else Gt)
  | _, S754_infinity s => Some (if s then Gt else Lt)
  | S754_zero _, S754_zero _ => Some Eq
  | S754_zero _, S754_finite s _ _ => Some (if s then Gt else Lt)
  | S754_finite s _ _, S754_zero _ => Some (if s then Lt else Gt)
  | S754_finite s1 m1 e1, S754_finite s2 m2 e2 =>
      let k := Z.min e1 e2 in
      Some (scaled k s1 m1 e1 ?= scaled k s2 m2 e2)
  end.

(** [x < y], [x > y], [x >= y], [x <= y] and [x === y] on numbers. *)
Definition lt (x y : number) : bool :=
  match compare x y with Some Lt => true | _ => false end.
Definition gt (x y : number) : bool := lt y x.
Definition ge (x y : number) : bool :=
  match compare x y with Some (Gt | Eq) => true | _ => false end.
Definition le (x y : number) : bool := ge y x.
Definition eq (x y : number) : bool :=
  match compare x y with Some Eq => true | _ => false end.

(** Global [isFinite] on a number. *)
Definition isFinite (x : number) : bool :=
  match x with
  | S754_zero _ | S754_finite _ _ _ => true
  | _ => false
  end.

Definition isNaN (x : number) : bool :=
  match x with S754_nan => true | _ => false end.

(** A number carrying the sign [s]: a zero, a finite value or an infinity. *)
Definition has_sign (s : bool) (x : number) : Prop :=
  match x with
  | S754_zero s' | S754_infinity s' | S754_finite s' _ _ => s' = s
  | S754_nan => False
  end.

(** [Math.max] and [Math.min] of two numbers: NaN if either is NaN, and
    [-0] counts as smaller than [+0]. *)
Definition Math_max (x y : number) : number :=
  match compare x y with
  | None => NaN
  | Some Lt => y
  | Some Gt => x
  | Some Eq =>
      match x with
      | S754_zero true => y
      | _ => x
      end
  end.

Definition Math_min (x y : number) : number :=
  match compare x y with
  | None => NaN
  | Some Lt => x
  | Some Gt => y
  | Some Eq =>
      match y with
      | S754_zero true => y
      | _ => x
      end
  end.

(** *** Decimal conversion *)

(** The number nearest to [(-1)^s * p / q] (ties to even). *)
Definition of_ratio (s : bool) (p q : positive) : number :=
  let '(m, e, l) := SFdiv_core_binary prec emax (Z.pos p) 0 (Z.pos q) 0 in
  binary_round_aux prec emax s m e l.

(** The number nearest to [(-1)^s * n * 10^k]. *)
Definition of_decimal (s : bool) (n : N) (k : Z) : number :=
  match n with
  | N0 => S754_zero s
  | Npos p =>
      match k with
      | Z0 => binary_normalize prec emax (signed s (Z.pos p)) 0 s
      | Zpos j => binary_normalize prec emax (signed s (Z.pos (p * 10 ^ j))) 0 s
      | Zneg j => of_ratio s p (10 ^ j)
      end
  end.

(** *** Strings of digits *)

Definition digit_of (c : ascii) : option N :=
  let n := N_of_ascii c in
  if ((48 <=? n) && (n <=? 57))%N then Some (n - 48)%N else None.

(** The leading decimal digits of [s]: their value appended to [acc], how
    many there are on top of [cnt], and what follows them. *)
Fixpoint digits (s : string) (acc : N) (cnt : nat) : N * nat * string :=
  match s with
  | String c s' =>
      match digit_of c with
      | Some d => digits s' (acc * 10 + d)%N (S cnt)
      | None => (acc, cnt, s)
      end
  | EmptyString => (acc, cnt, s)
  end.

Definition decimal (n : N) : string := NilZero.string_of_uint (N.to_uint n).

Fixpoint zeros (n : nat) : string :=
  match n with
  | O => ""
  | S n' => String "0" (zeros n')
  end.

Fixpoint take (n : nat) (s : string) : string :=
  match n, s with
  | S n', String c s' => String c (take n' s')
  | _, _ => ""
  end.

Fixpoint drop (n : nat) (s : string) : string :=
  match n, s with
  | S n', String _ s' => drop n' s'
  | _, _ => s
  end.

(** *** parseFloat *)

(** White space and line terminators (the ASCII ones; strings are byte
    strings here). *)
Definition is_space (c : ascii) : bool :=
  let n := N_of_ascii c in
  ((n =? 9) || (n =? 10) || (n =? 11) || (n =? 12) || (n =? 13) || (n =? 32))%N.

Fixpoint trim_start (s : string) : string :=
  match s with
  | String c s' => if is_space c then trim_start s' else s
  | EmptyString => s
  end.

(** The value of the ExponentPart that [s] starts with, 0 when it starts
    with none. *)
Definition exponent_part (s : string) : Z :=
  match s with
  | String c r =>
      if (c =? "e")%char || (c =? "E")%char then
        let '(sg, r') :=
          match r with
          | String "-" t => (true, t)
          | String "+" t => (false, t)
          | _ => (false, r)
          end in
        let '(v, cnt, _) := digits r' 0 0 in
        match cnt with
        | O => 0
        | S _ => signed sg (Z.of_N v)
        end
      else 0
  | EmptyString => 0
  end.

(** [of_decimal] for a literal of [cnt] digits, with the two ends of the
    range cut short: above [10^310] every nonzero literal rounds to an
    infinity, below [10^-330] to a zero. *)
Definition of_literal (s : bool) (n : N) (cnt : nat) (k : Z) : number :=
  if (n =? 0)%N then S754_zero s
  else if 310 <? k then S754_infinity s
  else if Z.of_nat cnt + k <? -330 then S754_zero s
  else of_decimal s n k.

(** [parseFloat]: skip leading white space, read the longest prefix that is
    a StrDecimalLiteral, NaN when there is none. *)
Definition parseFloat (str : string) : number :=
  let t := trim_start str in
  let '(sg, t1) :=
    match t with
    | String "-" r => (true, r)
    | String "+" r => (false, r)
    | _ => (false, t)
    end in
  if String.prefix "Infinity" t1 then S754_infinity sg
  else
    let '(i, a, t2) := digits t1 0 0 in
    let '(n, b, t3) :=
      match t2 with
      | String "." r => digits r i 0
      | _ => (i, O, t2)
      end in
    match (a + b)%nat with
    | O => NaN
    | S _ => of_literal sg n (a + b) (exponent_part t3 - Z.of_nat b)
    end.

(** *** Number to string *)

(** The positive finite value [m * 2^e] as a fraction of integers. *)
Definition numerator (m : positive) (e : Z) : Z := Z.pos m * 2 ^ Z.max e 0.
Definition denominator (e : Z) : Z := 2 ^ Z.max (- e) 0.

(** The decimal exponent of [x = p / q]: the least [n] with [x < 10^n].
    From 1 upwards when [x >= 1], with [pw = 10^n]; from 0 downwards when
    [x < 1], with [pw = 10^(1 - n)]. *)
Fixpoint exponent_up (fuel : nat) (p q pw n : Z) : Z :=
  match fuel with
  | O => n
  | S fuel' => if p <? q * pw then n else exponent_up fuel' p q (pw * 10) (n + 1)
  end.

Fixpoint exponent_down (fuel : nat) (p q pw n : Z) : Z :=
  match fuel with
  | O => n
  | S fuel' => if p * pw <? q then exponent_down fuel' p q (pw * 10) (n - 1) else n
  end.

Definition decimal_exponent (p q : Z) : Z :=
  if p <? q then exponent_down 400 p q 10 0 else exponent_up 400 p q 10 1.

(** The shortest digits [s] (at least [k], at most [k + fuel] of them) and
    exponent [n] with [s * 10^(n - k)] rounding to [x = p / q], the nearest
    to [x] among them; [n0] is the decimal exponent of [x]. *)
Fixpoint shortest (fuel : nat) (x : number) (p q n0 : Z) (k : Z) : Z * Z * Z :=
  let j := n0 - k in
  let num := if j <? 0 then p * 10 ^ (- j) else p in
  let den := if j <? 0 then q else q * 10 ^ j in
  let lo := num / den in
  let hi := lo + 1 in
  let back (s : Z) := compare (of_decimal false (Z.to_N s) j) x in
  let lo_ok := match back lo with Some Eq => true | _ => false end in
  let hi_ok := match back hi with Some Eq => true | _ => false end in
  let up := if hi =? 10 ^ k then (10 ^ (k - 1), n0 + 1, k) else (hi, n0, k) in
  let nearer_hi :=
    match 2 * num ?= (lo + hi) * den with
    | Lt => false
    | Gt => true
    | Eq => Z.odd lo
    end in
  match fuel with
  | O => (lo, n0, k)
  | S fuel' =>
      if lo_ok && hi_ok then (if nearer_hi then up else (lo, n0, k))
      else if lo_ok then (lo, n0, k)
      else if hi_ok then up
      else shortest fuel' x p q n0 (k + 1)
  end.

(** Number::toString in radix 10. *)
Definition toString (x : number) : string :=
  match x with
  | S754_nan => "NaN"
  | S754_zero _ => "0"
  | S754_infinity s => if s then "-Infinity" else "Infinity"
  | S754_finite sg m e =>
      let p := numerator m e in
      let q := denominator e in
      let n0 := decimal_exponent p q in
      let '(s, n, k) := shortest 20 (S754_finite false m e) p q n0 1 in
      let ds := decimal (Z.to_N s) in
      let body :=
        if (k <=? n) && (n <=? 21) then ds ++ zeros (Z.to_nat (n - k))
        else if (0 <? n) && (n <=? 21) then
          take (Z.to_nat n) ds ++ "." ++ drop (Z.to_nat n) ds
        else if (-6 <? n) && (n <=? 0) then "0." ++ zeros (Z.to_nat (- n)) ++ ds
        else
          let ex := (if n - 1 <? 0 then "-" else "+") ++ decimal (Z.abs_N (n - 1)) in
          if k =? 1 then ds ++ "e" ++ ex
          else take 1 ds ++ "." ++ drop 1 ds ++ "e" ++ ex in
      (if sg then "-" else "") ++ body
  end.

(** [n] printed with [f] digits after the point. *)
Definition fixed_digits (n : N) (f : nat) : string :=
  let m := decimal n in
  match f with
  | O => m
  | S _ =>
      let m' := zeros (S f - String.length m) ++ m in
      let a := (String.length m' - f)%nat in
      take a m' ++ "." ++ drop a m'
  end.

(** Number.prototype.toFixed: beyond [10^21] as [toString]; otherwise the
    integer [n] with [n / 10^f] nearest to the value, the larger of two. *)
Definition toFixed (x : number) (f : nat) : string :=
  match x with
  | S754_finite sg m e =>
      let p := numerator m e in
      let q := denominator e in
      if 10 ^ 21 * q <=? p then toString x
      else
        let n := (2 * p * 10 ^ Z.of_nat f + q) / (2 * q) in
        (if sg then "-" else "") ++ fixed_digits (Z.to_N n) f
  | S754_zero _ => fixed_digits 0 f
  | _ => toString x
  end.

End JS.

Import JS.

Declare Scope num_scope.
Delimit Scope num_scope with num.
Bind Scope num_scope with number.
Infix "+" := add : num_scope.
Infix "-" := sub : num_scope.
Infix "*" := mul : num_scope.
Infix "/" := div : num_scope.
Infix "<?" := lt : num_scope.
Infix ">?" := gt : num_scope.
Infix ">=?" := ge : num_scope.
Infix "<=?" := le : num_scope.
Infix "=?" := eq : num_scope.

(** A numeric literal of the source, by its text. *)
Definition num (s : string) : number := parseFloat s.

Definition Math_PI : number := S754_finite false 7074237752028440 (-51).

(** ** The page *)

(** An element, with the properties the script touches: [value] of inputs
    and selects, [checked] of check boxes, [textContent], the attributes
    set with [setAttribute], and [style.stroke]. *)
Record element := Element {
  value : string;
  checked : bool;
  textContent : string;
  attributes : gmap string string;
  stroke : string
}.

Abbreviation document := (gmap string element).

Definition set_value (v : string) (n : element) : element :=
  Element v (checked n) (textContent n) (attributes n) (stroke n).
Definition set_textContent (t : string) (n : element) : element :=
  Element (value n) (checked n) t (attributes n) (stroke n).
Definition set_attribute (k v : string) (n : element) : element :=
  Element (value n) (checked n) (textContent n) (<[k := v]> (attributes n)) (stroke n).
Definition set_stroke (c : string) (n : element) : element :=
  Element (value n) (checked n) (textContent n) (attributes n) c.

(** [document.getElementById] *)
Definition el (d : document) (id : string) : option element := d !! id.

Definition valNum (d : document) (id : string) (fallback : number) : number :=
  match el d id with
  | None => fallback
  | Some n =>
      let v := parseFloat (value n) in
      if isFinite v then v else fallback
  end.

Definition setText (id text : string) (d : document) : document :=
  match el d id with
  | Some n => <[id := set_textContent text n]> d
  | None => d
  end.

Definition setValue (id v : string) (d : document) : document :=
  match el d id with
  | Some n => <[id := set_value v n]> d
  | None => d
  end.

(** ** Constants *)

Definition CLIENT_FEES : list (string * number) :=
  [ ("SimpliFI", num "0.06");
    ("Careerstaff", num "0.035");
    ("Medical Solutions", num "0.042");
    ("AMN", num "0.05");
    ("HWL", num "0.045");
    ("Eisenhower Health", num "0.038");
    ("Focus One", num "0.04");
    ("Priority Group", num "0.039");
    ("Intermountain Health", num "0.041");
    ("AYA", num "0.048");
    ("NYCHH", num "0.055");
    ("Medefis", num "0.043") ].

Definition BURDEN : number := num "1.23".
Definition WEEKS_IN_MONTH : number := num "4".
Definition DEFAULT_SCHEDULE_DAYS : number := num "5".

Fixpoint entry {A} (k : string) (l : list (string * A)) : option A :=
  match l with
  | [] => None
  | (k', v) :: l' => if String.eqb k k' then Some v else entry k l'
  end.

(** The names every object literal inherits from [Object.prototype]; a
    lookup of one of them yields a function or an object, not a number. *)
Definition inherited_keys : list string :=
  [ "constructor"; "hasOwnProperty"; "isPrototypeOf"; "propertyIsEnumerable";
    "toLocaleString"; "toString"; "valueOf"; "__proto__";
    "__defineGetter__"; "__defineSetter__"; "__lookupGetter__";
    "__lookupSetter__" ].

(** [x || 0] on a number: 0, -0 and NaN are falsy. *)
Definition or_zero (x : number) : number :=
  match x with
  | S754_zero _ | S754_nan => zero
  | _ => x
  end.

(** [CLIENT_FEES[client] || 0] as it enters the arithmetic: the fee of a
    listed client, 0 for an unknown one, and NaN where the lookup finds an
    inherited member. *)
Definition fee_of (client : string) : number :=
  match entry client CLIENT_FEES with
  | Some f => or_zero f
  | None => if existsb (String.eqb client) inherited_keys then NaN else zero
  end.

Local Open Scope num_scope.

(** ** The values [recalc] derives *)

Section Derived.

(** The page as [recalc] finds it. *)
Variable d : document.

Definition client : string :=
  match el d "client" with
  | Some n => if String.eqb (value n) "" then "SimpliFI" else value n
  | None => "SimpliFI"
  end.
Definition fee : number := fee_of client.

(** Inputs *)
Definition billR : number := valNum d "bill_regular" zero.
Definition billOT : number := valNum d "bill_ot" zero.
Definition payR : number := valNum d "pay_regular" zero.
Definition hrsR : number := valNum d "hrs_regular" zero.
Definition hrsOT : number := valNum d "hrs_ot" zero.
Definition weeks : number := valNum d "contract_len" zero.
Definition houseDaily : number := valNum d "house_daily" zero.
Definition mealsDaily : number := valNum d "meals_daily" zero.
Definition orientType : string :=
  match el d "orient_type" with
  | Some n => if String.eqb (value n) "" then "Non Billable" else value n
  | None => "Non Billable"
  end.
Definition orientHours : number := valNum d "orient_hours" zero.
Definition orientPay : number := valNum d "orient_pay" zero.
Definition bonusStart : number := valNum d "bonus_start" zero.
Definition bonusComplete : number := valNum d "bonus_complete" zero.
Definition bcgReimb : number := valNum d "bcg_reimb" zero.
Definition scheduleDays : number := valNum d "schedule_days" DEFAULT_SCHEDULE_DAYS.

(** Rate after fee *)
Definition hrAfterFee : number := billR * (num "1" - fee).
Definition otHrAfterFee : number := billOT * (num "1" - fee).

(** Hourly stipend components *)
Definition ND : number := houseDaily + mealsDaily.
Definition NW : number := ND * num "7".
Definition NH : number :=
  if hrsR >? num "40" then NW / num "40"
  else if hrsR >? zero then NW / hrsR else zero.
Definition HA_hourly : number :=
  if hrsR >? num "40" then houseDaily * num "7" / num "40"
  else if hrsR >? zero then houseDaily * num "7" / hrsR else zero.
Definition MI_hourly : number :=
  if hrsR >? num "40" then mealsDaily * num "7" / num "40"
  else if hrsR >? zero then mealsDaily * num "7" / hrsR else zero.

(** Contract hours *)
Definition contractRegularHours : number := hrsR * weeks.
Definition contractOTHours : number := hrsOT * weeks.
Definition totalContractHours : number := contractRegularHours + contractOTHours.

(** Sick pay hours: filled in when the check box is absent or checked, then
    read back from the field. *)
Definition sickBox : option element := el d "auto_sick_calc".
Definition autoSickHours : number := totalContractHours / num "30".
Definition autoSick : bool :=
  match sickBox with
  | None => true
  | Some n => checked n
  end.
Definition fill_sick_hours : document :=
  if autoSick
  then setValue "sick_hours"
         (if autoSickHours >? zero then toFixed autoSickHours 2 else "") d
  else d.
Definition sickHours : number := valNum fill_sick_hours "sick_hours" autoSickHours.

(** One-time hourlies, spread over the regular hours *)
Definition startBonusHourly : number :=
  if contractRegularHours >? zero then bonusStart / contractRegularHours else zero.
Definition completeBonusHourly : number :=
  if contractRegularHours >? zero then bonusComplete / contractRegularHours else zero.
Definition bcgHourly : number :=
  if contractRegularHours >? zero then bcgReimb / contractRegularHours else zero.
Definition sickHourly : number :=
  if contractRegularHours >? zero then sickHours * payR / contractRegularHours else zero.

(** Orientation *)
Definition effectiveOrientPay : number :=
  if String.eqb orientType "Non Billable" then num "16.5" else orientPay.
Definition orientPayRatePerHr : number :=
  if String.eqb orientType "Billable" then payR + HA_hourly + MI_hourly
  else effectiveOrientPay.
Definition totalOrientationPay : number := orientHours * orientPayRatePerHr.
Definition orientationHourly : number :=
  if String.eqb orientType "Non Billable" && (contractRegularHours >? zero)
  then totalOrientationPay / contractRegularHours
  else zero.

(** Payroll (taxable) *)
Definition PT_OVERTIME : number := payR * num "1.5".
Definition dailyRegularHours : number := hrsR / Math_max (num "1") scheduleDays.
Definition OT_if_above_8h : number :=
  if dailyRegularHours >? num "8" then dailyRegularHours - num "8" else zero.
Definition OT_rate_if_above_40 : number :=
  if hrsR >? num "40" then PT_OVERTIME + NH else zero.

Definition weeklyOnW2Taxable : number :=
  if hrsR >? num "40"
  then (hrsR - OT_if_above_8h * scheduleDays) * payR
       + OT_if_above_8h * scheduleDays * OT_rate_if_above_40
  else hrsR * payR.

Definition totalWeeklyTaxableWithOT : number := weeklyOnW2Taxable + hrsOT * PT_OVERTIME.

Definition weeklyStipendNT : number :=
  if hrsR >? num "40" then hrsR * NW / num "40" else NW.

Definition weeklyGross : number := weeklyOnW2Taxable + weeklyStipendNT.

(** Client billing *)
Definition weeklyBillingClient : number := hrsR * hrAfterFee + hrsOT * otHrAfterFee.
Definition monthlyBillingClient : number := weeklyBillingClient * WEEKS_IN_MONTH.
Definition contractBillingClient : number := weeklyBillingClient * weeks.

(** Hourly margin *)
Definition hourlyMargin : number :=
  hrAfterFee
  - payR * BURDEN
  - (NH + bcgHourly)
  - (startBonusHourly + completeBonusHourly + sickHourly) * BURDEN
  - (if String.eqb orientType "Non Billable" then orientationHourly * BURDEN else zero).

(** NETs *)
Definition otMargin : number := otHrAfterFee - PT_OVERTIME * BURDEN.
Definition weeklyNET : number := hourlyMargin * hrsR + otMargin * hrsOT.
Definition monthlyNET : number := weeklyNET * WEEKS_IN_MONTH.
Definition contractNET : number := weeklyNET * weeks.

End Derived.

(** ** Writing the results *)

Notation "d |> f" := (f d) (at level 69, left associativity, only parsing).

Section Page.

(** The host's [toLocaleString("en-US", {style: "currency", currency: "USD"})]
    on a number. *)
Variable toLocaleString : number -> string.

Definition fmtUSD (v : number) : string :=
  toLocaleString (if isFinite v then v else zero).

(** The message under the gauge. *)
Definition gauge_message (margin target : number) (d : document) : string :=
  if (margin =? zero) && (valNum d "bill_regular" zero =? zero)
  then "Enter numbers to analyze margin."
  else if margin <? zero
  then "Margin is negative. Review pay rates and bill rates."
  else if margin <? target
  then "Margin is below target of " ++ fmtUSD target ++ "."
  else "Margin looks healthy.".

(** The gauge shows progress towards twice the target. *)
Definition gauge_progress (margin target : number) : number :=
  let progress := if target >? zero then margin / (target * num "2") else zero in
  Math_max zero (Math_min (num "1") progress).

Definition gauge_stroke (margin target : number) : string :=
  if margin >=? target then "#1e8e3e"
  else if margin >? zero then "#f9ab00" else "#d93025".

Definition renderGauge (margin target : number) (d : document) : document :=
  let d1 := setText "gaugeValue" (fmtUSD margin) d in
  let d2 := setText "ma_message" (gauge_message margin target d1) d1 in
  match el d2 "gaugeArc" with
  | None => d2
  | Some arc =>
      let r := num "60" in
      let circ := num "2" * Math_PI * r in
      let progress := gauge_progress margin target in
      let offset := circ - progress * circ in
      <["gaugeArc" :=
          arc |> set_attribute "stroke-dasharray" (toString circ)
              |> set_attribute "stroke-dashoffset" (toString offset)
              |> set_stroke (gauge_stroke margin target)]> d2
  end.

Definition recalc (d : document) : document :=
  fill_sick_hours d
  (* Rate after fee *)
  |> setText "afterfee_regular" (fmtUSD (hrAfterFee d))
  |> setText "afterfee_ot" (fmtUSD (otHrAfterFee d))
  (* Auto-set OT pay *)
  |> setValue "pay_ot" (if payR d >? zero then toFixed (PT_OVERTIME d) 2 else "")
  (* Nurse package *)
  |> setText "np_tax_hourly" (fmtUSD (payR d))
  |> setText "np_tax_daily" (fmtUSD (payR d * dailyRegularHours d))
  |> setText "np_tax_weekly" (fmtUSD (totalWeeklyTaxableWithOT d))
  |> setText "np_tax_monthly" (fmtUSD (totalWeeklyTaxableWithOT d * WEEKS_IN_MONTH))
  |> setText "np_nt_hourly" (fmtUSD (NH d))
  |> setText "np_nt_daily" (fmtUSD (ND d))
  |> setText "np_nt_weekly" (fmtUSD (weeklyStipendNT d))
  |> setText "np_nt_monthly" (fmtUSD (weeklyStipendNT d * WEEKS_IN_MONTH))
  |> setText "np_total_hourly" (fmtUSD (payR d + NH d))
  |> setText "np_total_daily" (fmtUSD (payR d * dailyRegularHours d + ND d))
  |> setText "np_total_weekly" (fmtUSD (totalWeeklyTaxableWithOT d + weeklyStipendNT d))
  |> setText "np_total_monthly"
       (fmtUSD ((totalWeeklyTaxableWithOT d + weeklyStipendNT d) * WEEKS_IN_MONTH))
  (* Gross margins and billing *)
  |> setText "gm_hourly" (fmtUSD (hourlyMargin d))
  |> setText "gm_weekly" (fmtUSD (weeklyNET d))
  |> setText "gm_monthly" (fmtUSD (monthlyNET d))
  |> setText "gm_contract" (fmtUSD (contractNET d))
  |> setText "bill_weekly" (fmtUSD (weeklyBillingClient d))
  |> setText "bill_monthly" (fmtUSD (monthlyBillingClient d))
  |> setText "bill_contract" (fmtUSD (contractBillingClient d))
  (* Package offered to nurse *)
  |> setText "pkg_total_hourly" (fmtUSD (payR d + NH d))
  |> setText "pkg_w2" (fmtUSD (payR d))
  |> setText "pkg_w2_ot" (fmtUSD (PT_OVERTIME d))
  |> setText "pkg_stipend_hourly" (fmtUSD (NH d))
  |> setText "pkg_ot_special" (fmtUSD (OT_rate_if_above_40 d))
  |> setText "pkg_weekly_gross" (fmtUSD (weeklyGross d))
  |> setText "pkg_weekly_w2" (fmtUSD (weeklyOnW2Taxable d))
  |> setText "pkg_weekly_stipend" (fmtUSD (weeklyStipendNT d))
  (* Orientation *)
  |> setText "orient_total" (fmtUSD (totalOrientationPay d))
  (* Additional pay (hourly) *)
  |> setText "hourly_start" (fmtUSD (startBonusHourly d))
  |> setText "hourly_complete" (fmtUSD (completeBonusHourly d))
  |> setText "hourly_bcg" (fmtUSD (bcgHourly d))
  |> setText "hourly_sick" (fmtUSD (sickHourly d))
  (* Gauge *)
  |> renderGauge (hourlyMargin d) (num "20").

End Page.

(** ** The specification's formulas

    Written from the words of the specification, to be compared with what
    [recalc] derives. *)

Module Spec.

Inductive orientation := Billable | NonBillable.

(** The two values of the orientation selector. *)
Definition orientation_of (s : string) : option orientation :=
  if String.eqb s "Billable" then Some Billable
  else if String.eqb s "Non Billable" then Some NonBillable
  else None.

(** Step 2: a bill rate after the client's fee. *)
Definition afterFee (bill fee : number) : number := bill * (num "1" - fee).

(** Step 4: a weekly amount spread over the hours worked, 40 at most. *)
Definition hourlyStipend (weekly hoursRegular : number) : number :=
  if hoursRegular >? num "40" then weekly / num "40"
  else if hoursRegular >? zero then weekly / hoursRegular
  else zero.

(** Step 6: sick hours accrue one per 30 contract hours, unless overridden. *)
Definition sickHours (autoSickCalc : bool) (totalContractHours override : number) : number :=
  if autoSickCalc then totalContractHours / num "30" else override.

(** Step 7: a lump sum per regular contract hour, 0 when there are none. *)
Definition spread (lump contractRegularHours : number) : number :=
  if contractRegularHours >? zero then lump / contractRegularHours else zero.

(** Step 8: the orientation pay rate and its cost per regular hour. *)
Definition orientationRate (o : orientation) (payRegular HA MI : number) : number :=
  match o with
  | NonBillable => num "16.5"
  | Billable => payRegular + HA + MI
  end.

Definition orientationHourly (o : orientation) (total contractRegularHours : number) : number :=
  match o with
  | NonBillable => spread total contractRegularHours
  | Billable => zero
  end.

(** Step 10: daily hours above 8. *)
Definition otExcessHours (hoursRegular scheduleDays : number) : number :=
  Math_max zero (hoursRegular / Math_max (num "1") scheduleDays - num "8").

(** Step 15: the hourly gross margin. *)
Definition margin (o : orientation)
    (hrAfterFee payRegular NH bcgHourly startBonusHourly completeBonusHourly
     sickHourly orientationHourly : number) : number :=
  hrAfterFee
  - payRegular * BURDEN
  - (NH + bcgHourly)
  - (startBonusHourly + completeBonusHourly + sickHourly) * BURDEN
  - match o with
    | NonBillable => orientationHourly * BURDEN
    | Billable => zero
    end.

(** The numeric fields of the input record that the margin depends on,
    and the orientation type. *)
Record input := Input {
  billRegular : number;
  payRegular : number;
  hoursRegular : number;
  contractWeeks : number;
  houseDaily : number;
  mealsDaily : number;
  orientationType : orientation;
  orientationHours : number;
  bonusStart : number;
  bonusComplete : number;
  bcgReimbursement : number
}.

(** Steps 2 to 5, 7, 8 and 15 in order, for a fee (step 1) and sick hours
    (step 6) already found. *)
Definition hourlyMargin (fee : number) (i : input) (sickHours : number) : number :=
  let hrAfterFee := afterFee (billRegular i) fee in
  let dailyNT := houseDaily i + mealsDaily i in
  let weeklyNT := dailyNT * num "7" in
  let NH := hourlyStipend weeklyNT (hoursRegular i) in
  let HA_hourly := hourlyStipend (houseDaily i * num "7") (hoursRegular i) in
  let MI_hourly := hourlyStipend (mealsDaily i * num "7") (hoursRegular i) in
  let contractRegularHours := hoursRegular i * contractWeeks i in
  let startBonusHourly := spread (bonusStart i) contractRegularHours in
  let completeBonusHourly := spread (bonusComplete i) contractRegularHours in
  let bcgHourly := spread (bcgReimbursement i) contractRegularHours in
  let sickHourly := spread (sickHours * payRegular i) contractRegularHours in
  let totalOrientationPay :=
    orientationHours i
    * orientationRate (orientationType i) (payRegular i) HA_hourly MI_hourly in
  let orientationHourly :=
    orientationHourly (orientationType i) totalOrientationPay contractRegularHours in
  margin (orientationType i) hrAfterFee (payRegular i) NH bcgHourly startBonusHourly
    completeBonusHourly sickHourly orientationHourly.

(** Section 4.2: [x] kept within [lo, hi]. *)
Definition clamp (x lo hi : number) : number := Math_max lo (Math_min hi x).

End Spec.

(** ** What one pass writes, key by key *)

(** [recalc] changes each element it finds by at most one of these. *)
Definition write : Type := string * (element -> element).

Definition apply_writes (ws : list write) (d : document) : document :=
  foldl (fun m (w : write) => alter (snd w) (fst w) m) d ws.

(** What [ws] does to the element [k]. *)
Definition patch (ws : list write) (k : string) : element -> element :=
  default id (entry k ws).

Definition gauge_arc (margin target : number) (arc : element) : element :=
  let circ := num "2" * Math_PI * num "60" in
  arc |> set_attribute "stroke-dasharray" (toString circ)
      |> set_attribute "stroke-dashoffset"
           (toString (circ - gauge_progress margin target * circ))
      |> set_stroke (gauge_stroke margin target).

Definition writes (toLocaleString : number -> string) (d : document) : list write :=
  let usd v := set_textContent (fmtUSD toLocaleString v) in
  [ ("sick_hours",
      if autoSick d
      then set_value (if autoSickHours d >? zero then toFixed (autoSickHours d) 2 else "")
      else id);
    ("afterfee_regular", usd (hrAfterFee d));
    ("afterfee_ot", usd (otHrAfterFee d));
    ("pay_ot", set_value (if payR d >? zero then toFixed (PT_OVERTIME d) 2 else ""));
    ("np_tax_hourly", usd (payR d));
    ("np_tax_daily", usd (payR d * dailyRegularHours d));
    ("np_tax_weekly", usd (totalWeeklyTaxableWithOT d));
    ("np_tax_monthly", usd (totalWeeklyTaxableWithOT d * WEEKS_IN_MONTH));
    ("np_nt_hourly", usd (NH d));
    ("np_nt_daily", usd (ND d));
    ("np_nt_weekly", usd (weeklyStipendNT d));
    ("np_nt_monthly", usd (weeklyStipendNT d * WEEKS_IN_MONTH));
    ("np_total_hourly", usd (payR d + NH d));
    ("np_total_daily", usd (payR d * dailyRegularHours d + ND d));
    ("np_total_weekly", usd (totalWeeklyTaxableWithOT d + weeklyStipendNT d));
    ("np_total_monthly",
      usd ((totalWeeklyTaxableWithOT d + weeklyStipendNT d) * WEEKS_IN_MONTH));
    ("gm_hourly", usd (hourlyMargin d));
    ("gm_weekly", usd (weeklyNET d));
    ("gm_monthly", usd (monthlyNET d));
    ("gm_contract", usd (contractNET d));
    ("bill_weekly", usd (weeklyBillingClient d));
    ("bill_monthly", usd (monthlyBillingClient d));
    ("bill_contract", usd (contractBillingClient d));
    ("pkg_total_hourly", usd (payR d + NH d));
    ("pkg_w2", usd (payR d));
    ("pkg_w2_ot", usd (PT_OVERTIME d));
    ("pkg_stipend_hourly", usd (NH d));
    ("pkg_ot_special", usd (OT_rate_if_above_40 d));
    ("pkg_weekly_gross", usd (weeklyGross d));
    ("pkg_weekly_w2", usd (weeklyOnW2Taxable d));
    ("pkg_weekly_stipend", usd (weeklyStipendNT d));
    ("orient_total", usd (totalOrientationPay d));
    ("hourly_start", usd (startBonusHourly d));
    ("hourly_complete", usd (completeBonusHourly d));
    ("hourly_bcg", usd (bcgHourly d));
    ("hourly_sick", usd (sickHourly d));
    ("gaugeValue", usd (hourlyMargin d));
    ("ma_message",
      set_textContent (gauge_message toLocaleString (hourlyMargin d) (num "20") d));
    ("gaugeArc", gauge_arc (hourlyMargin d) (num "20")) ].

(** The elements whose text a pass sets to a formatted amount. *)
Definition currency_ids : list string :=
  [ "afterfee_regular"; "afterfee_ot";
    "np_tax_hourly"; "np_tax_daily"; "np_tax_weekly"; "np_tax_monthly";
    "np_nt_hourly"; "np_nt_daily"; "np_nt_weekly"; "np_nt_monthly";
    "np_total_hourly"; "np_total_daily"; "np_total_weekly"; "np_total_monthly";
    "gm_hourly"; "gm_weekly"; "gm_monthly"; "gm_contract";
    "bill_weekly"; "bill_monthly"; "bill_contract";
    "pkg_total_hourly"; "pkg_w2"; "pkg_w2_ot"; "pkg_stipend_hourly";
    "pkg_ot_special"; "pkg_weekly_gross"; "pkg_weekly_w2"; "pkg_weekly_stipend";
    "orient_total";
    "hourly_start"; "hourly_complete"; "hourly_bcg"; "hourly_sick";
    "gaugeValue" ].

(** ** Sample pages *)

Definition field (v : string) : element := Element v false "" ∅ "".
Definition checkbox (b : bool) : element := Element "" b "" ∅ "".

Definition page_of (fields : list (string * string)) : document :=
  list_to_map ((fun kv : string * string => (fst kv, field (snd kv))) <$> fields).

(** A stand-in for the host's currency format, for evaluating [recalc]. *)
Definition plain_USD (v : number) : string := "$" ++ toFixed v 2.

(** The worked example of the specification. *)
Definition page_example : document :=
  <["auto_sick_calc" := checkbox true]>
    (page_of
       [ ("client", "SimpliFI"); ("bill_regular", "50"); ("bill_ot", "");
         ("pay_regular", "30"); ("pay_ot", ""); ("hrs_regular", "36");
         ("hrs_ot", "0"); ("contract_len", "13"); ("house_daily", "20");
         ("meals_daily", "15"); ("orient_type", "Non Billable");
         ("orient_hours", "8"); ("orient_pay", "16.5"); ("bonus_start", "");
         ("bonus_complete", ""); ("bcg_reimb", ""); ("sick_hours", "");
         ("schedule_days", "5"); ("gm_hourly", ""); ("hourly_sick", "");
         ("gaugeValue", ""); ("ma_message", ""); ("gaugeArc", "") ]).

(** 45 regular hours over 5 days: 9 hours a day. *)
Definition page_45_hours : document :=
  page_of
    [ ("pay_regular", "30"); ("hrs_regular", "45"); ("schedule_days", "5");
      ("house_daily", "20"); ("meals_daily", "15") ].

(** 40 hours a week for 13 weeks, sick hours filled in automatically. *)
Definition page_auto_sick : document :=
  page_of
    [ ("bill_regular", "40"); ("pay_regular", "25"); ("hrs_regular", "40");
      ("contract_len", "13"); ("sick_hours", ""); ("gm_hourly", "") ].

(** The same with the check box cleared and no sick hours entered. *)
Definition page_manual_sick : document :=
  <["auto_sick_calc" := checkbox false]> page_auto_sick.

(** A week of 20 hours. *)
Definition page_short_contract : document :=
  page_of
    [ ("bill_regular", "100"); ("pay_regular", "60"); ("hrs_regular", "20");
      ("contract_len", "1"); ("sick_hours", ""); ("gm_hourly", "") ].

Definition page_pay_33_33 : document :=
  page_of [ ("pay_regular", "33.33"); ("pay_ot", "1") ].

Definition page_pay_negative : document :=
  page_of [ ("pay_regular", "-10"); ("pay_ot", "1") ].

(** Finite entries whose products overflow. *)
Definition page_overflow : document :=
  page_of
    [ ("pay_regular", "1.5e308"); ("hrs_regular", "1e200");
      ("contract_len", "1e200"); ("pay_ot", ""); ("sick_hours", "");
      ("gm_hourly", ""); ("gaugeValue", ""); ("ma_message", "");
      ("gaugeArc", "") ].

(** A contract without regular hours, with one-time payments. *)
Definition page_no_hours : document :=
  page_of
    [ ("pay_regular", "30"); ("hrs_regular", "0"); ("hrs_ot", "4");
      ("contract_len", "13"); ("bonus_start", "1000"); ("bonus_complete", "500");
      ("bcg_reimb", "75"); ("orient_hours", "8") ].

Definition page_billable : document :=
  page_of
    [ ("pay_regular", "30"); ("hrs_regular", "36"); ("contract_len", "13");
      ("house_daily", "20"); ("meals_daily", "15"); ("orient_type", "Billable");
      ("orient_hours", "8"); ("orient_pay", "16.5"); ("orient_total", "");
      ("gm_hourly", "") ].

(** ** Three sentences of the specification, as they are worded *)

(** The fields of a page as an input record, for an orientation type [o]. *)
Definition read_input (d : document) (o : Spec.orientation) : Spec.input :=
  {| Spec.billRegular := billR d;
     Spec.payRegular := payR d;
     Spec.hoursRegular := hrsR d;
     Spec.contractWeeks := weeks d;
     Spec.houseDaily := houseDaily d;
     Spec.mealsDaily := mealsDaily d;
     Spec.orientationType := o;
     Spec.orientationHours := orientHours d;
     Spec.bonusStart := bonusStart d;
     Spec.bonusComplete := bonusComplete d;
     Spec.bcgReimbursement := bcgReimb d |}.

(** Sick hours are exactly one per 30 contract hours when computed, and
    the entered value otherwise, 0 when that is missing or unparsable. *)
Definition sick_hours_as_specified (d : document) : Prop :=
  sickHours d =
  Spec.sickHours (autoSick d) (totalContractHours d) (valNum d "sick_hours" zero).

(** The hourly margin is the formula of step 15 over the quantities of
    steps 1 to 8, the sick hours of step 6 among them. *)
Definition hourly_margin_as_specified (d : document) (o : Spec.orientation) : Prop :=
  hourlyMargin d =
  Spec.hourlyMargin (fee_of (client d)) (read_input d o)
    (Spec.sickHours (autoSick d) (totalContractHours d) (valNum d "sick_hours" zero)).

(** After a pass the overtime pay field holds the regular pay times 1.5. *)
Definition pay_ot_as_specified (toLocaleString : number -> string) (d : document) : Prop :=
  valNum (recalc toLocaleString d) "pay_ot" zero = payR d * num "1.5".

(** ** The listeners

    What the handlers that [wirePayToCandidate], [ensureOrientationControls]
    and [ensureReset] register do to the page when they run. *)

Definition set_checked (b : bool) (n : element) : element :=
  Element (value n) b (textContent n) (attributes n) (stroke n).

Section Listeners.

Variable toLocaleString : number -> string.

(** [sync] of [wirePayToCandidate]: the overtime pay field follows the
    regular pay field. Without a regular pay field there is no [sync]. *)
Definition sync (d : document) : document :=
  match el d "pay_regular" with
  | None => d
  | Some w2 =>
      match el d "pay_ot" with
      | None => d
      | Some ot =>
          let w2Value :=
            parseFloat (if String.eqb (value w2) "" then "0" else value w2) in
          <["pay_ot" :=
              set_value (if w2Value >? zero
                         then toFixed (or_zero (w2Value * num "1.5")) 2
                         else "") ot]> d
      end
  end.

(** The input listener of the regular pay field: [sync(); recalc()]. *)
Definition pay_regular_input (d : document) : document :=
  recalc toLocaleString (sync d).

(** The change listener of the orientation selector. *)
Definition orient_type_change (d : document) : document :=
  match el d "orient_type" with
  | None => d
  | Some orientSel =>
      recalc toLocaleString
        (if String.eqb (value orientSel) "Non Billable"
         then setValue "orient_pay" "16.5" d
         else d)
  end.

(** The change listener of the sick-hours check box is [recalc] itself; the
    box is cleared or ticked by the user before it runs. *)
Definition auto_sick_change (b : bool) (d : document) : document :=
  recalc toLocaleString (alter (set_checked b) "auto_sick_calc" d).

(** The ids of the elements that [input[type=number]] selects. *)
Variable number_inputs : list string.

(** Whether the selector [id] offers an option of value [v]. *)
Variable has_option : string -> string -> bool.

(** Assigning to [value] of a selector selects the option of that value;
    with no such option nothing is selected and [value] reads empty. *)
Definition select_value (id v : string) (d : document) : document :=
  setValue id (if has_option id v then v else "") d.

(** The click listener of the reset button: it empties the number inputs,
    puts the defaults back, and runs a pass. *)
Definition reset_form (d : document) : document :=
  let d := foldl (fun m i => setValue i "" m) d number_inputs in
  let d := select_value "client" "SimpliFI" d in
  let d := select_value "orient_type" "Non Billable" d in
  let d := setValue "orient_pay" "16.5" d in
  let d := setValue "schedule_days" "5" d in
  match el d "auto_sick_calc" with
  | Some sickBox => <["auto_sick_calc" := set_checked true sickBox]> d
  | None => d
  end.

Definition reset_click (d : document) : document :=
  recalc toLocaleString (reset_form d).

(** What the listener does to the element [k] before the pass. *)
Definition reset_element (k : string) (e : element) : element :=
  let e := if bool_decide (k ∈ number_inputs) then set_value "" e else e in
  let e := if decide (k = "client")
           then set_value (if has_option "client" "SimpliFI" then "SimpliFI" else "") e
           else e in
  let e := if decide (k = "orient_type")
           then set_value (if has_option "orient_type" "Non Billable"
                           then "Non Billable" else "") e
           else e in
  let e := if decide (k = "orient_pay") then set_value "16.5" e else e in
  let e := if decide (k = "schedule_days") then set_value "5" e else e in
  if decide (k = "auto_sick_calc") then set_checked true e else e.

(** The host's [toLocaleString("en-US", {style: "percent",
    minimumFractionDigits: 2})] on a number, and what the same call
    returns on a member inherited from [Object.prototype]. *)
Variable percent : number -> string.
Variable inherited_text : string -> string.

(** ["Fee: " + CLIENT_FEES[name].toLocaleString(...)]: for a name that is
    neither in the table nor inherited the lookup is undefined and the call
    throws a TypeError. *)
Definition fee_text (name : string) : option string :=
  match entry name CLIENT_FEES with
  | Some f => Some ("Fee: " ++ percent f)
  | None =>
      if existsb (String.eqb name) inherited_keys
      then Some ("Fee: " ++ inherited_text name)
      else None
  end.

(** The change listener of the client selector; [None] when it throws. *)
Definition client_change (d : document) : option document :=
  match el d "client" with
  | None => Some d
  | Some clientSel =>
      let title := setText "title" (value clientSel ++ " Rate Calculator") in
      match el d "fee" with
      | Some _ =>
          match fee_text (value clientSel) with
          | Some t => Some (recalc toLocaleString (title (setText "fee" t d)))
          | None => None
          end
      | None => Some (recalc toLocaleString (title d))
      end
  end.

End Listeners.

(** ** The fields of the form *)

(** The fields whose value a pass reads, apart from the orientation pay,
    the sick hours and the check box. *)
Definition read_ids : list string :=
  [ "client"; "bill_regular"; "bill_ot"; "pay_regular"; "hrs_regular"; "hrs_ot";
    "contract_len"; "house_daily"; "meals_daily"; "orient_type"; "orient_hours";
    "bonus_start"; "bonus_complete"; "bcg_reimb"; "schedule_days" ].

(** All the elements a pass reads. *)
Definition input_ids : list string :=
  read_ids ++ [ "orient_pay"; "sick_hours"; "auto_sick_calc" ].

(** The amounts among them that are read with 0 for a missing or
    unparsable entry. *)
Definition amount_ids : list string :=
  [ "bill_regular"; "bill_ot"; "pay_regular"; "hrs_regular"; "hrs_ot";
    "contract_len"; "house_daily"; "meals_daily"; "orient_hours";
    "bonus_start"; "bonus_complete"; "bcg_reimb" ].

(** All the elements a pass writes. *)
Definition written_ids : list string :=
  "sick_hours" :: "pay_ot" :: "ma_message" :: "gaugeArc" :: currency_ids.

(** A form with no amount entered: every amount reads as 0. *)
Definition blank (d : document) : Prop :=
  Forall (fun k => valNum d k zero = zero) amount_ids.

(** Two pages that hold the same in every field a pass reads: the sick
    hours field is read for its text only when the hours are entered by
    hand, and filled in when it exists otherwise. *)
Definition same_inputs (d d' : document) : Prop :=
  (forall k, k ∈ read_ids -> value <$> d' !! k = value <$> d !! k) /\
  value <$> d' !! "orient_pay" = value <$> d !! "orient_pay" /\
  checked <$> d' !! "auto_sick_calc" = checked <$> d !! "auto_sick_calc" /\
  (is_Some (d' !! "sick_hours") <-> is_Some (d !! "sick_hours")) /\
  (autoSick d = false -> value <$> d' !! "sick_hours" = value <$> d !! "sick_hours").

(** The numbers a pass reads from the page. *)
Definition inputs (d : document) : list number :=
  [ billR d; billOT d; payR d; hrsR d; hrsOT d; weeks d; houseDaily d;
    mealsDaily d; orientHours d; orientPay d; bonusStart d; bonusComplete d;
    bcgReimb d; scheduleDays d ].

(** ** More sample pages *)

(** The form with nothing entered, and with its outputs. *)
Definition page_blank : document :=
  <["auto_sick_calc" := checkbox true]>
    (page_of
       [ ("client", "SimpliFI"); ("bill_regular", ""); ("bill_ot", "");
         ("pay_regular", ""); ("pay_ot", "7"); ("hrs_regular", "");
         ("hrs_ot", ""); ("contract_len", ""); ("house_daily", "");
         ("meals_daily", ""); ("orient_type", "Non Billable");
         ("orient_hours", ""); ("orient_pay", "16.5"); ("bonus_start", "");
         ("bonus_complete", ""); ("bcg_reimb", ""); ("sick_hours", "3");
         ("schedule_days", "5"); ("gm_hourly", ""); ("gm_weekly", "");
         ("gaugeValue", ""); ("ma_message", ""); ("gaugeArc", "") ]).

(** The worked example with the check box cleared and 10 sick hours
    entered. *)
Definition page_manual_10 : document :=
  <["auto_sick_calc" := checkbox false]> (<["sick_hours" := field "10"]> page_example).

(** A stand-in for the host's percent format. *)
Definition plain_percent (v : number) : string := toFixed (v * num "100") 2 ++ "%".

(** The worked example with the fee line and the title. *)
Definition page_titled : document :=
  <["fee" := field ""]> (<["title" := field ""]> page_example).

(** The same with a client that the table does not list. *)
Definition page_unlisted_client : document :=
  <["client" := field "Acme"]> page_titled.

(** The number inputs of the worked example's form. *)
Definition example_number_inputs : list string :=
  amount_ids ++ [ "pay_ot"; "orient_pay"; "sick_hours"; "schedule_days" ].

(** * Properties *)

(** ** Rounding keeps the sign *)

Local Close Scope num_scope.

Lemma shr_1_nonneg mrs : 0 <= shr_m mrs -> 0 <= shr_m (shr_1 mrs).
Proof.
  destruct mrs as [m r s]; simpl.
  destruct m as [|[p|p|]|[p|p|]]; simpl; lia.
Qed.

Lemma iter_pos_invariant {A} (P : A -> Prop) (f : A -> A) :
  (forall a, P a -> P (f a)) -> forall p a, P a -> P (SpecFloat.iter_pos f p a).
Proof.
  intros Hf. induction p as [p IH|p IH|]; simpl; intros a Ha; auto.
Qed.

Lemma shr_nonneg mrs e n : 0 <= shr_m mrs -> 0 <= shr_m (fst (shr mrs e n)).
Proof.
  intros H. destruct n; simpl; auto.
  apply (iter_pos_invariant (fun r => 0 <= shr_m r)); auto using shr_1_nonneg.
Qed.

Lemma shr_fexp_nonneg m e l : 0 <= m -> 0 <= shr_m (fst (shr_fexp prec emax m e l)).
Proof.
  intros H. unfold shr_fexp. apply shr_nonneg. destruct l as [|[]]; simpl; auto.
Qed.

Lemma round_nearest_even_nonneg m l : 0 <= m -> 0 <= round_nearest_even m l.
Proof.
  intros H. destruct l as [|[]]; simpl; try lia. destruct (Z.even m); lia.
Qed.

Lemma binary_round_aux_sign s mx ex lx :
  0 <= mx -> has_sign s (binary_round_aux prec emax s mx ex lx).
Proof.
  intros H. unfold binary_round_aux.
  pose proof (shr_fexp_nonneg mx ex lx H) as H1.
  destruct (shr_fexp prec emax mx ex lx) as [mrs' e'] eqn:E1. simpl in H1.
  pose proof (shr_fexp_nonneg _ e' loc_Exact
                (round_nearest_even_nonneg _ (loc_of_shr_record mrs') H1)) as H2.
  destruct (shr_fexp prec emax _ e' loc_Exact) as [mrs'' e''] eqn:E2. simpl in H2.
  destruct (shr_m mrs'') as [|p|p]; simpl; try lia; auto.
  destruct (e'' <=? emax - prec); simpl; auto.
Qed.

Lemma binary_round_sign s m e : has_sign s (binary_round prec emax s m e).
Proof.
  unfold binary_round. destruct (shl_align _ _ _) as [mz ez].
  apply binary_round_aux_sign. lia.
Qed.

Lemma binary_normalize_sign z e :
  match z ?= 0 with
  | Eq => binary_normalize prec emax z e false = zero
  | Lt => has_sign true (binary_normalize prec emax z e false)
  | Gt => has_sign false (binary_normalize prec emax z e false)
  end.
Proof.
  destruct z; simpl; auto using binary_round_sign.
Qed.

Lemma pos_iter_xO m d : Z.pos (Pos.iter xO m d) = Z.pos m * 2 ^ Z.pos d.
Proof.
  induction d as [|d IH] using Pos.peano_ind.
  - simpl. lia.
  - rewrite Pos.iter_succ, Pos2Z.inj_xO, IH, Pos2Z.inj_succ, Z.pow_succ_r by lia. lia.
Qed.

Lemma shl_align_value m e k :
  k <= e -> Z.pos (fst (shl_align m e k)) = Z.pos m * 2 ^ (e - k).
Proof.
  intros H. unfold shl_align.
  destruct (k - e) as [|p|p] eqn:E; simpl; try lia.
  - replace (e - k) with 0 by lia. lia.
  - rewrite pos_iter_xO. f_equal. f_equal. lia.
Qed.

Lemma sub_finite s1 m1 e1 s2 m2 e2 :
  sub (S754_finite s1 m1 e1) (S754_finite s2 m2 e2) =
  binary_normalize prec emax
    (scaled (Z.min e1 e2) s1 m1 e1 - scaled (Z.min e1 e2) s2 m2 e2)
    (Z.min e1 e2) false.
Proof.
  unfold sub, SFsub, scaled, signed, cond_Zopp.
  rewrite !shl_align_value by lia. reflexivity.
Qed.

Lemma Math_max_zero_pos x : has_sign false x -> Math_max zero x = x.
Proof. destruct x as [[]|[]| |[] m e]; simpl; intros H; try easy. Qed.

Lemma Math_max_zero_neg x : has_sign true x -> Math_max zero x = zero.
Proof. destruct x as [[]|[]| |[] m e]; simpl; intros H; try easy. Qed.

(** The excess over a bound [b] that is a positive finite number, written
    with a test as the script does, is [Math.max(0, x - b)]. *)
Lemma excess_Math_max x mb eb :
  isNaN x = false ->
  let b := S754_finite false mb eb in
  (if gt x b then sub x b else zero) = Math_max zero (sub x b).
Proof.
  intros Hx b. destruct x as [s|s| |s m e]; try discriminate.
  - destruct s; reflexivity.
  - destruct s; reflexivity.
  - unfold gt, lt, b. rewrite sub_finite. cbn [compare]. rewrite (Z.min_comm eb e).
    pose proof (binary_normalize_sign
      (scaled (Z.min e eb) s m e - scaled (Z.min e eb) false mb eb) (Z.min e eb)) as Hs.
    set (a := scaled (Z.min e eb) s m e) in *.
    set (c := scaled (Z.min e eb) false mb eb) in *.
    destruct (Z.compare_spec c a) as [H|H|H];
      destruct (Z.compare_spec (a - c) 0) as [H'|H'|H']; try lia.
    + rewrite Hs. reflexivity.
    + symmetry. apply Math_max_zero_pos, Hs.
    + symmetry. apply Math_max_zero_neg, Hs.
Qed.

Lemma has_sign_not_nan s x : has_sign s x -> isNaN x = false.
Proof. destruct x; simpl; easy. Qed.

Lemma scaled_pos k m e : k <= e -> 0 < scaled k false m e.
Proof. intros H. unfold scaled, signed. pose proof (Z.pow_pos_nonneg 2 (e - k)). lia. Qed.

Lemma scaled_neg k m e : k <= e -> scaled k true m e < 0.
Proof. intros H. unfold scaled, signed. pose proof (Z.pow_pos_nonneg 2 (e - k)). lia. Qed.

Lemma compare_antisym x y : compare y x = option_map CompOpp (compare x y).
Proof.
  destruct x as [[]|[]| |s1 m1 e1], y as [[]|[]| |s2 m2 e2]; simpl; try reflexivity;
    try (destruct s1; reflexivity); try (destruct s2; reflexivity).
  rewrite (Z.min_comm e2 e1), Z.compare_antisym. reflexivity.
Qed.

Lemma SFdiv_core_binary_nonneg m1 e1 m2 e2 :
  0 <= m1 -> 0 < m2 ->
  0 <= fst (fst (SFdiv_core_binary prec emax m1 e1 m2 e2)).
Proof.
  intros H1 H2. unfold SFdiv_core_binary.
  set (s := _ - _ - _).
  set (m' := match s with Z0 => m1 | Z.pos _ => Z.shiftl m1 s | Z.neg _ => 0 end).
  assert (0 <= m') as Hm'.
  { unfold m'. destruct s; try lia. apply Z.shiftl_nonneg. lia. }
  pose proof (Z.div_pos m' m2 Hm' H2) as Hq. unfold Z.div in Hq.
  destruct (Z.div_eucl m' m2) as [q r]. simpl in *. exact Hq.
Qed.

Lemma div_finite_sign sx mx ex sy my ey :
  has_sign (xorb sx sy) (div (S754_finite sx mx ex) (S754_finite sy my ey)).
Proof.
  unfold div, SFdiv.
  pose proof (SFdiv_core_binary_nonneg (Z.pos mx) ex (Z.pos my) ey) as H.
  destruct (SFdiv_core_binary prec emax (Z.pos mx) ex (Z.pos my) ey) as [[mz ez] lz].
  apply binary_round_aux_sign. apply H; lia.
Qed.

(** A finite number divided by a nonzero finite one is a number. *)
Lemma div_not_nan x sy my ey :
  isFinite x = true -> isNaN (div x (S754_finite sy my ey)) = false.
Proof.
  destruct x as [s|s| |s m e]; try discriminate; intros _.
  - reflexivity.
  - eapply has_sign_not_nan, div_finite_sign.
Qed.

Lemma num_1 : num "1" = S754_finite false 4503599627370496 (-52).
Proof. reflexivity. Qed.

(** [Math.max(1, x)] of a finite [x] is a positive finite number. *)
Lemma Math_max_1_finite x :
  isFinite x = true -> exists m e, Math_max (num "1") x = S754_finite false m e.
Proof.
  rewrite num_1. destruct x as [s|s| |s m e]; try discriminate; intros _.
  - destruct s; eauto.
  - unfold Math_max. cbn [compare].
    set (k := Z.min (-52) e).
    destruct (Z.compare_spec (scaled k false 4503599627370496 (-52)) (scaled k s m e)) as [H|H|H];
      eauto.
    destruct s; eauto.
    pose proof (scaled_pos k 4503599627370496 (-52)).
    pose proof (scaled_neg k m e). lia.
Qed.

Lemma isFinite_valNum d id fb : isFinite fb = true -> isFinite (valNum d id fb) = true.
Proof.
  intros H. unfold valNum. destruct (el d id) as [n|]; auto.
  simpl. destruct (isFinite (parseFloat (value n))) eqn:E; auto.
Qed.

Lemma dailyRegularHours_not_nan d : isNaN (dailyRegularHours d) = false.
Proof.
  unfold dailyRegularHours.
  destruct (Math_max_1_finite (scheduleDays d)) as (m & e & ->).
  { apply isFinite_valNum. reflexivity. }
  apply div_not_nan, isFinite_valNum. reflexivity.
Qed.

(** ** The order of numbers *)

Lemma digits2_pos_bounds m :
  2 ^ (Z.pos (digits2_pos m) - 1) <= Z.pos m < 2 ^ Z.pos (digits2_pos m).
Proof.
  induction m as [p IH|p IH|]; cbn [digits2_pos]; [| |simpl; lia].
  all: rewrite Pos2Z.inj_succ; set (dg := Z.pos (digits2_pos p)) in *.
  all: assert (0 < dg) as Hdg by (unfold dg; lia); clearbody dg.
  all: replace (Z.succ dg - 1) with (Z.succ (dg - 1)) by lia.
  all: rewrite !Z.pow_succ_r by lia.
  all: set (a := 2 ^ (dg - 1)) in *; set (b := 2 ^ dg) in *; clearbody a b.
  - rewrite Pos2Z.inj_xI. lia.
  - rewrite Pos2Z.inj_xO. lia.
Qed.

(** A canonical mantissa has at most 53 bits, and exactly 53 above the
    least exponent. *)
Lemma canonical_mantissa_bounds m e :
  canonical_mantissa prec emax m e = true ->
  -1074 <= e /\ Z.pos m < 2 ^ 53 /\ (-1074 < e -> 2 ^ 52 <= Z.pos m).
Proof.
  unfold canonical_mantissa, fexp, SpecFloat.emin, prec, emax. intros H.
  apply Z.eqb_eq in H.
  pose proof (digits2_pos_bounds m) as [Hlo Hhi].
  set (dg := Z.pos (digits2_pos m)) in *. clearbody dg.
  assert (dg <= 53) as Hd by lia.
  repeat apply conj.
  - lia.
  - eapply Z.lt_le_trans; [exact Hhi|]. apply Z.pow_le_mono_r; lia.
  - intros He. assert (dg = 53) as Hd' by lia. rewrite Hd' in Hlo. exact Hlo.
Qed.

Lemma compare_canonical_exponents m1 e1 m2 e2 :
  canonical_mantissa prec emax m1 e1 = true ->
  canonical_mantissa prec emax m2 e2 = true ->
  e1 < e2 -> Z.pos m1 < Z.pos m2 * 2 ^ (e2 - e1).
Proof.
  intros H1 H2 He.
  apply canonical_mantissa_bounds in H1 as (Hmin & Hm1 & _).
  apply canonical_mantissa_bounds in H2 as (_ & _ & Hm2).
  specialize (Hm2 ltac:(lia)).
  assert (2 ^ 1 <= 2 ^ (e2 - e1)) as Hp by (apply Z.pow_le_mono_r; lia).
  change (2 ^ 53) with (2 ^ 52 * 2 ^ 1) in Hm1. nia.
Qed.

(** On canonical values [compare] is the comparison of [SpecFloat]. *)
Lemma compare_SFcompare x y :
  valid_binary prec emax x = true -> valid_binary prec emax y = true ->
  compare x y = SFcompare x y.
Proof.
  destruct x as [s1|s1| |s1 m1 e1], y as [s2|s2| |s2 m2 e2]; try reflexivity;
    try (destruct s1, s2; reflexivity).
  cbn [valid_binary]. unfold bounded. intros H1 H2.
  apply andb_prop in H1 as [H1 _]. apply andb_prop in H2 as [H2 _].
  cbn [compare SFcompare]. f_equal. unfold scaled, signed.
  destruct (Z.compare_spec e1 e2) as [He|He|He].
  - subst e2. rewrite Z.min_id, Z.sub_diag, !Z.mul_1_r.
    destruct s1, s2; reflexivity.
  - rewrite Z.min_l, Z.sub_diag, Z.mul_1_r by lia.
    pose proof (compare_canonical_exponents m1 e1 m2 e2 H1 H2 He).
    destruct s1, s2.
    + apply Z.compare_gt_iff. lia.
    + apply Z.compare_lt_iff. lia.
    + apply Z.compare_gt_iff. lia.
    + apply Z.compare_lt_iff. lia.
  - rewrite Z.min_r, Z.sub_diag, Z.mul_1_r by lia.
    pose proof (compare_canonical_exponents m2 e2 m1 e1 H2 H1 He).
    destruct s1, s2.
    + apply Z.compare_lt_iff. lia.
    + apply Z.compare_lt_iff. lia.
    + apply Z.compare_gt_iff. lia.
    + apply Z.compare_gt_iff. lia.
Qed.

(** ** One pass as a list of writes *)

Local Open Scope num_scope.

Lemma setText_alter id t (d : document) : setText id t d = alter (set_textContent t) id d.
Proof.
  unfold setText, el. apply map_eq. intros k.
  destruct (d !! id) as [n|] eqn:E.
  - rewrite lookup_insert, lookup_alter. case_decide; subst; rewrite ?E; reflexivity.
  - rewrite lookup_alter. case_decide; subst; rewrite ?E; reflexivity.
Qed.

Lemma setValue_alter id v (d : document) : setValue id v d = alter (set_value v) id d.
Proof.
  unfold setValue, el. apply map_eq. intros k.
  destruct (d !! id) as [n|] eqn:E.
  - rewrite lookup_insert, lookup_alter. case_decide; subst; rewrite ?E; reflexivity.
  - rewrite lookup_alter. case_decide; subst; rewrite ?E; reflexivity.
Qed.

Lemma fill_sick_hours_alter (d : document) :
  fill_sick_hours d =
  alter (if autoSick d
         then set_value (if autoSickHours d >? zero then toFixed (autoSickHours d) 2 else "")
         else id) "sick_hours" d.
Proof.
  unfold fill_sick_hours. destruct (autoSick d).
  - apply setValue_alter.
  - symmetry. apply alter_id. reflexivity.
Qed.

Lemma valNum_ext (d d' : document) id fb :
  value <$> d' !! id = value <$> d !! id -> valNum d' id fb = valNum d id fb.
Proof.
  unfold valNum, el.
  destruct (d' !! id) as [n'|], (d !! id) as [n|]; simpl; intros H; try discriminate; auto.
  injection H as ->. reflexivity.
Qed.

Lemma gauge_message_ext fmt margin target (d d' : document) :
  value <$> d' !! "bill_regular" = value <$> d !! "bill_regular" ->
  gauge_message fmt margin target d' = gauge_message fmt margin target d.
Proof. intros H. unfold gauge_message. rewrite (valNum_ext d d') by exact H. reflexivity. Qed.

Lemma renderGauge_alter fmt margin target (d : document) :
  renderGauge fmt margin target d =
  alter (gauge_arc margin target) "gaugeArc"
    (alter (set_textContent (gauge_message fmt margin target d)) "ma_message"
       (alter (set_textContent (fmtUSD fmt margin)) "gaugeValue" d)).
Proof.
  unfold renderGauge. rewrite !setText_alter.
  rewrite (gauge_message_ext _ _ _ d) by (rewrite lookup_alter_ne by done; reflexivity).
  set (d2 := alter _ "ma_message" _).
  unfold el. apply map_eq. intros k.
  destruct (d2 !! "gaugeArc") as [arc|] eqn:E.
  - rewrite lookup_insert, lookup_alter. case_decide; subst; rewrite ?E; reflexivity.
  - rewrite lookup_alter. case_decide; subst; rewrite ?E; reflexivity.
Qed.

Lemma recalc_writes fmt (d : document) : recalc fmt d = apply_writes (writes fmt d) d.
Proof.
  unfold recalc. rewrite renderGauge_alter.
  rewrite !setText_alter, !setValue_alter, fill_sick_hours_alter.
  unfold writes, apply_writes. cbn [foldl fst snd].
  rewrite (gauge_message_ext _ _ _ d) by (rewrite !lookup_alter_ne by done; reflexivity).
  reflexivity.
Qed.

Lemma entry_None {A} k (l : list (string * A)) : k ∉ fst <$> l -> entry k l = None.
Proof.
  induction l as [|[i x] l IH]; simpl; intros H; auto.
  destruct (String.eqb_spec k i) as [->|Hne].
  - exfalso. apply H. left.
  - apply IH. intros Hin. apply H. right. exact Hin.
Qed.

Lemma lookup_apply_writes ws (d : document) k :
  NoDup (fst <$> ws) -> apply_writes ws d !! k = patch ws k <$> d !! k.
Proof.
  revert d. induction ws as [|[i f] ws IH]; intros d Hnd.
  - unfold patch. simpl. destruct (d !! k); reflexivity.
  - apply NoDup_cons in Hnd as [Hi Hnd].
    change (apply_writes ((i, f) :: ws) d) with (apply_writes ws (alter f i d)).
    rewrite IH by exact Hnd. unfold patch. simpl.
    destruct (String.eqb_spec k i) as [->|Hne].
    + rewrite (entry_None i ws Hi), lookup_alter_eq. simpl.
      destruct (d !! i); reflexivity.
    + rewrite lookup_alter_ne by congruence. reflexivity.
Qed.

Lemma writes_keys_NoDup fmt d : NoDup (fst <$> writes fmt d).
Proof.
  unfold writes. cbn [fmap list_fmap fst].
  apply (bool_decide_unpack _). vm_compute. exact I.
Qed.

Lemma lookup_recalc fmt (d : document) k :
  recalc fmt d !! k = patch (writes fmt d) k <$> d !! k.
Proof. rewrite recalc_writes. apply lookup_apply_writes, writes_keys_NoDup. Qed.

(** *** What the writes leave alone *)

Lemma patch_elim (P : (element -> element) -> Prop) ws k :
  P id -> Forall (fun w : write => fst w = k -> P (snd w)) ws -> P (patch ws k).
Proof.
  intros Hid. unfold patch. induction 1 as [|[i f] ws Hw _ IH]; simpl; auto.
  destruct (String.eqb_spec k i) as [->|Hne]; simpl; auto.
Qed.

Ltac each_write :=
  unfold writes; repeat (apply Forall_cons; split); [..|by apply Forall_nil];
  cbn [fst snd].

Lemma patch_checked fmt d k e : checked (patch (writes fmt d) k e) = checked e.
Proof.
  apply (patch_elim (fun f => checked (f e) = checked e)); [reflexivity|].
  each_write; intros _; try reflexivity.
  destruct (autoSick d); reflexivity.
Qed.

Lemma patch_value fmt d k e :
  k <> "sick_hours" -> k <> "pay_ot" -> value (patch (writes fmt d) k e) = value e.
Proof.
  intros H1 H2.
  apply (patch_elim (fun f => value (f e) = value e)); [reflexivity|].
  each_write; intros Hk; try reflexivity; congruence.
Qed.

Lemma patch_value_sick fmt d e :
  autoSick d = false -> value (patch (writes fmt d) "sick_hours" e) = value e.
Proof. intros H. unfold patch. cbn. rewrite H. reflexivity. Qed.

Lemma gauge_arc_idem m t e : gauge_arc m t (gauge_arc m t e) = gauge_arc m t e.
Proof.
  unfold gauge_arc, set_stroke, set_attribute. cbn. f_equal.
  apply map_eq. intros k. rewrite !lookup_insert.
  repeat case_decide; reflexivity.
Qed.

Lemma patch_idem fmt d k e :
  patch (writes fmt d) k (patch (writes fmt d) k e) = patch (writes fmt d) k e.
Proof.
  revert e. apply (patch_elim (fun f => forall e, f (f e) = f e)); [reflexivity|].
  each_write; intros _ e; try reflexivity.
  - destruct (autoSick d); reflexivity.
  - apply gauge_arc_idem.
Qed.

(** *** Pages that agree on what [recalc] reads *)

Create Rewrite HintDb agree.

Section Agree.

Variables d d' : document.

Hypothesis Hvalue : forall k,
  k <> "sick_hours" -> k <> "pay_ot" -> k <> "orient_pay" ->
  value <$> d' !! k = value <$> d !! k.
Hypothesis Hchecked : forall k, checked <$> d' !! k = checked <$> d !! k.
Hypothesis Hsick :
  autoSick d = false -> value <$> d' !! "sick_hours" = value <$> d !! "sick_hours".
Hypothesis Horient :
  Spec.orientation_of (orientType d) <> None \/
  value <$> d' !! "orient_pay" = value <$> d !! "orient_pay".

Ltac same_field := apply valNum_ext, Hvalue; discriminate.

Lemma agree_client : client d' = client d.
Proof.
  unfold client, el. pose proof (Hvalue "client") as H.
  destruct (d' !! "client"), (d !! "client"); simpl in H;
    try (specialize (H ltac:(discriminate) ltac:(discriminate) ltac:(discriminate)));
    try discriminate; auto.
  injection H as ->. reflexivity.
Qed.

Lemma agree_orientType : orientType d' = orientType d.
Proof.
  unfold orientType, el. pose proof (Hvalue "orient_type") as H.
  destruct (d' !! "orient_type"), (d !! "orient_type"); simpl in H;
    try (specialize (H ltac:(discriminate) ltac:(discriminate) ltac:(discriminate)));
    try discriminate; auto.
  injection H as ->. reflexivity.
Qed.

Lemma agree_billR : billR d' = billR d. Proof. same_field. Qed.
Lemma agree_billOT : billOT d' = billOT d. Proof. same_field. Qed.
Lemma agree_payR : payR d' = payR d. Proof. same_field. Qed.
Lemma agree_hrsR : hrsR d' = hrsR d. Proof. same_field. Qed.
Lemma agree_hrsOT : hrsOT d' = hrsOT d. Proof. same_field. Qed.
Lemma agree_weeks : weeks d' = weeks d. Proof. same_field. Qed.
Lemma agree_houseDaily : houseDaily d' = houseDaily d. Proof. same_field. Qed.
Lemma agree_mealsDaily : mealsDaily d' = mealsDaily d. Proof. same_field. Qed.
Lemma agree_orientHours : orientHours d' = orientHours d. Proof. same_field. Qed.
Lemma agree_bonusStart : bonusStart d' = bonusStart d. Proof. same_field. Qed.
Lemma agree_bonusComplete : bonusComplete d' = bonusComplete d. Proof. same_field. Qed.
Lemma agree_bcgReimb : bcgReimb d' = bcgReimb d. Proof. same_field. Qed.
Lemma agree_scheduleDays : scheduleDays d' = scheduleDays d. Proof. same_field. Qed.

Lemma agree_autoSick : autoSick d' = autoSick d.
Proof.
  unfold autoSick, sickBox, el. pose proof (Hchecked "auto_sick_calc") as H.
  destruct (d' !! "auto_sick_calc"), (d !! "auto_sick_calc"); simpl in H;
    try discriminate; auto.
  injection H as ->. reflexivity.
Qed.

#[local] Hint Rewrite agree_client agree_orientType agree_billR agree_billOT agree_payR
  agree_hrsR agree_hrsOT agree_weeks agree_houseDaily agree_mealsDaily
  agree_orientHours agree_bonusStart agree_bonusComplete agree_bcgReimb
  agree_scheduleDays agree_autoSick : agree.

Ltac agree := autorewrite with agree; reflexivity.

Lemma agree_fee : fee d' = fee d. Proof. unfold fee. agree. Qed.
#[local] Hint Rewrite agree_fee : agree.
Lemma agree_hrAfterFee : hrAfterFee d' = hrAfterFee d. Proof. unfold hrAfterFee. agree. Qed.
Lemma agree_otHrAfterFee : otHrAfterFee d' = otHrAfterFee d. Proof. unfold otHrAfterFee. agree. Qed.
Lemma agree_ND : ND d' = ND d. Proof. unfold ND. agree. Qed.
#[local] Hint Rewrite agree_hrAfterFee agree_otHrAfterFee agree_ND : agree.
Lemma agree_NW : NW d' = NW d. Proof. unfold NW. agree. Qed.
#[local] Hint Rewrite agree_NW : agree.
Lemma agree_NH : NH d' = NH d. Proof. unfold NH. agree. Qed.
Lemma agree_HA_hourly : HA_hourly d' = HA_hourly d. Proof. unfold HA_hourly. agree. Qed.
Lemma agree_MI_hourly : MI_hourly d' = MI_hourly d. Proof. unfold MI_hourly. agree. Qed.
Lemma agree_contractRegularHours : contractRegularHours d' = contractRegularHours d.
Proof. unfold contractRegularHours. agree. Qed.
Lemma agree_contractOTHours : contractOTHours d' = contractOTHours d.
Proof. unfold contractOTHours. agree. Qed.
#[local] Hint Rewrite agree_NH agree_HA_hourly agree_MI_hourly agree_contractRegularHours
  agree_contractOTHours : agree.
Lemma agree_totalContractHours : totalContractHours d' = totalContractHours d.
Proof. unfold totalContractHours. agree. Qed.
#[local] Hint Rewrite agree_totalContractHours : agree.
Lemma agree_autoSickHours : autoSickHours d' = autoSickHours d.
Proof. unfold autoSickHours. agree. Qed.
#[local] Hint Rewrite agree_autoSickHours : agree.

Lemma agree_sickHours : sickHours d' = sickHours d.
Proof.
  unfold sickHours. rewrite agree_autoSickHours. apply valNum_ext.
  rewrite !fill_sick_hours_alter, !lookup_alter_eq.
  rewrite agree_autoSick, agree_autoSickHours.
  pose proof (Hchecked "sick_hours") as Hc.
  destruct (autoSick d) eqn:E.
  - destruct (d' !! "sick_hours"), (d !! "sick_hours"); simpl in *; congruence.
  - specialize (Hsick eq_refl).
    destruct (d' !! "sick_hours"), (d !! "sick_hours"); simpl in *; congruence.
Qed.
#[local] Hint Rewrite agree_sickHours : agree.

Lemma agree_startBonusHourly : startBonusHourly d' = startBonusHourly d.
Proof. unfold startBonusHourly. agree. Qed.
Lemma agree_completeBonusHourly : completeBonusHourly d' = completeBonusHourly d.
Proof. unfold completeBonusHourly. agree. Qed.
Lemma agree_bcgHourly : bcgHourly d' = bcgHourly d.
Proof. unfold bcgHourly. agree. Qed.
Lemma agree_sickHourly : sickHourly d' = sickHourly d.
Proof. unfold sickHourly. agree. Qed.
#[local] Hint Rewrite agree_startBonusHourly agree_completeBonusHourly agree_bcgHourly
  agree_sickHourly : agree.

(** The orientation rate reads the orientation pay field only for a
    selector value that is neither of the two. *)
Lemma agree_orientPayRatePerHr : orientPayRatePerHr d' = orientPayRatePerHr d.
Proof.
  unfold orientPayRatePerHr, effectiveOrientPay. autorewrite with agree.
  destruct Horient as [H|H].
  - unfold Spec.orientation_of in H.
    destruct (String.eqb (orientType d) "Billable"); [reflexivity|].
    destruct (String.eqb (orientType d) "Non Billable"); [reflexivity|].
    congruence.
  - unfold orientPay. rewrite (valNum_ext d d') by exact H. reflexivity.
Qed.
#[local] Hint Rewrite agree_orientPayRatePerHr : agree.
Lemma agree_totalOrientationPay : totalOrientationPay d' = totalOrientationPay d.
Proof. unfold totalOrientationPay. agree. Qed.
#[local] Hint Rewrite agree_totalOrientationPay : agree.
Lemma agree_orientationHourly : orientationHourly d' = orientationHourly d.
Proof. unfold orientationHourly. agree. Qed.
Lemma agree_PT_OVERTIME : PT_OVERTIME d' = PT_OVERTIME d.
Proof. unfold PT_OVERTIME. agree. Qed.
Lemma agree_dailyRegularHours : dailyRegularHours d' = dailyRegularHours d.
Proof. unfold dailyRegularHours. agree. Qed.
#[local] Hint Rewrite agree_orientationHourly agree_PT_OVERTIME agree_dailyRegularHours : agree.
Lemma agree_OT_if_above_8h : OT_if_above_8h d' = OT_if_above_8h d.
Proof. unfold OT_if_above_8h. agree. Qed.
Lemma agree_OT_rate_if_above_40 : OT_rate_if_above_40 d' = OT_rate_if_above_40 d.
Proof. unfold OT_rate_if_above_40. agree. Qed.
#[local] Hint Rewrite agree_OT_if_above_8h agree_OT_rate_if_above_40 : agree.
Lemma agree_weeklyOnW2Taxable : weeklyOnW2Taxable d' = weeklyOnW2Taxable d.
Proof. unfold weeklyOnW2Taxable. agree. Qed.
#[local] Hint Rewrite agree_weeklyOnW2Taxable : agree.
Lemma agree_totalWeeklyTaxableWithOT :
  totalWeeklyTaxableWithOT d' = totalWeeklyTaxableWithOT d.
Proof. unfold totalWeeklyTaxableWithOT. agree. Qed.
Lemma agree_weeklyStipendNT : weeklyStipendNT d' = weeklyStipendNT d.
Proof. unfold weeklyStipendNT. agree. Qed.
#[local] Hint Rewrite agree_totalWeeklyTaxableWithOT agree_weeklyStipendNT : agree.
Lemma agree_weeklyGross : weeklyGross d' = weeklyGross d.
Proof. unfold weeklyGross. agree. Qed.
Lemma agree_weeklyBillingClient : weeklyBillingClient d' = weeklyBillingClient d.
Proof. unfold weeklyBillingClient. agree. Qed.
#[local] Hint Rewrite agree_weeklyGross agree_weeklyBillingClient : agree.
Lemma agree_monthlyBillingClient : monthlyBillingClient d' = monthlyBillingClient d.
Proof. unfold monthlyBillingClient. agree. Qed.
Lemma agree_contractBillingClient : contractBillingClient d' = contractBillingClient d.
Proof. unfold contractBillingClient. agree. Qed.
Lemma agree_hourlyMargin : hourlyMargin d' = hourlyMargin d.
Proof. unfold hourlyMargin. agree. Qed.
Lemma agree_otMargin : otMargin d' = otMargin d.
Proof. unfold otMargin. agree. Qed.
#[local] Hint Rewrite agree_monthlyBillingClient agree_contractBillingClient agree_hourlyMargin
  agree_otMargin : agree.
Lemma agree_weeklyNET : weeklyNET d' = weeklyNET d.
Proof. unfold weeklyNET. agree. Qed.
#[local] Hint Rewrite agree_weeklyNET : agree.
Lemma agree_monthlyNET : monthlyNET d' = monthlyNET d.
Proof. unfold monthlyNET. agree. Qed.
Lemma agree_contractNET : contractNET d' = contractNET d.
Proof. unfold contractNET. agree. Qed.
#[local] Hint Rewrite agree_monthlyNET agree_contractNET : agree.

(** Two pages that agree on the fields read get the same writes. *)
Lemma agree_writes fmt : writes fmt d' = writes fmt d.
Proof.
  unfold writes. autorewrite with agree.
  rewrite (gauge_message_ext fmt _ _ d d') by (apply Hvalue; discriminate).
  reflexivity.
Qed.

End Agree.

(** ** The hourly margin and what it is made of *)

Lemma orientation_of_Some s o :
  Spec.orientation_of s = Some o ->
  match o with
  | Spec.Billable => s = "Billable"
  | Spec.NonBillable => s = "Non Billable"
  end.
Proof.
  unfold Spec.orientation_of.
  destruct (String.eqb_spec s "Billable") as [E|E]; [intros [= <-]; exact E|].
  destruct (String.eqb_spec s "Non Billable") as [E'|E']; [intros [= <-]; exact E'|].
  discriminate.
Qed.

(** C1 as worded fails on the code. The sick hours of step 6 are one per
    30 contract hours, but the pass rounds them to two decimals on their
    way through the sick-hours field. For one week of 20 hours at a bill
    rate of 100 and a pay rate of 60 the hourly margin is 17.7277 where the
    formula over steps 1 to 8 gives 17.74; for 13 weeks of 40 hours at a
    bill rate of 40 and a pay rate of 25 it is 5.8252 against 5.825. *)
Lemma hourly_margin_as_specified_counterexample :
  let specified d :=
    Spec.hourlyMargin (fee_of (client d)) (read_input d Spec.NonBillable)
      (Spec.sickHours (autoSick d) (totalContractHours d) (valNum d "sick_hours" zero)) in
  (Spec.orientation_of (orientType page_short_contract) = Some Spec.NonBillable /\
   toString (hourlyMargin page_short_contract) = "17.727700000000002" /\
   toString (specified page_short_contract) = "17.740000000000002" /\
   ~ hourly_margin_as_specified page_short_contract Spec.NonBillable) /\
  (Spec.orientation_of (orientType page_auto_sick) = Some Spec.NonBillable /\
   toString (hourlyMargin page_auto_sick) = "5.82519711538461" /\
   toString (specified page_auto_sick) = "5.824999999999994" /\
   ~ hourly_margin_as_specified page_auto_sick Spec.NonBillable).
Proof.
  cbv zeta. repeat apply conj; try (vm_compute; reflexivity);
    intros H; vm_compute in H; discriminate H.
Qed.

(** C1, amended. For a page whose orientation selector holds one of its two
    values, the hourly gross margin is
    [hrAfterFee - payRegular*burden - (NH + bcgHourly)
     - (startBonusHourly + completeBonusHourly + sickHourly)*burden
     - (orientationHourly*burden if NonBillable else 0)]
    with burden 1.23 and the intermediate quantities derived as steps 1 to
    5, 7 and 8 say, the sick hours being those the pass reads back from
    the sick-hours field; and this is the number formatted into the hourly
    gross margin output. *)
Theorem hourlyMargin_formula (toLocaleString : number -> string)
    (d : document) (o : Spec.orientation) :
  Spec.orientation_of (orientType d) = Some o ->
  let margin := Spec.hourlyMargin (fee_of (client d)) (read_input d o) (sickHours d) in
  BURDEN = num "1.23" /\
  hourlyMargin d = margin /\
  recalc toLocaleString d !! "gm_hourly" =
    set_textContent (fmtUSD toLocaleString margin) <$> d !! "gm_hourly".
Proof.
  intros Ho. cbv zeta.
  assert (hourlyMargin d =
          Spec.hourlyMargin (fee_of (client d)) (read_input d o) (sickHours d)) as Hm.
  { apply orientation_of_Some in Ho.
    unfold hourlyMargin, orientationHourly, totalOrientationPay, orientPayRatePerHr,
      effectiveOrientPay.
    destruct o; rewrite Ho; reflexivity. }
  split; [reflexivity|]. split; [exact Hm|].
  rewrite lookup_recalc, <- Hm. reflexivity.
Qed.

Lemma hourlyMargin_formula_witness :
  Spec.orientation_of (orientType page_example) = Some Spec.NonBillable /\
  toString (hourlyMargin page_example) = "1.7175213675213692" /\
  textContent <$> recalc plain_USD page_example !! "gm_hourly" = Some "$1.72".
Proof.
  split; [vm_compute; reflexivity|].
  destruct (hourlyMargin_formula plain_USD page_example Spec.NonBillable)
    as (_ & Hm & Hout); [vm_compute; reflexivity|].
  split; [rewrite Hm|rewrite Hout]; vm_compute; reflexivity.
Defined.

(** ** Weekly taxable pay *)

Lemma le_not_gt x y : (x <=? y) = true -> (x >? y) = false.
Proof.
  unfold le, ge, gt, lt. rewrite (compare_antisym x y).
  destruct (compare x y) as [[]|]; simpl; congruence.
Qed.

Lemma OT_if_above_8h_max d :
  OT_if_above_8h d = Spec.otExcessHours (hrsR d) (scheduleDays d).
Proof.
  unfold OT_if_above_8h, Spec.otExcessHours.
  change (num "8") with (S754_finite false 4503599627370496 (-49)).
  apply excess_Math_max, dailyRegularHours_not_nan.
Qed.

(** C2. With more than 40 regular hours the weekly taxable pay (before the
    pay for the additional overtime hours) is
    [(hoursRegular - otExcessHours*scheduleDays)*payRegular
     + (otExcessHours*scheduleDays)*(payRegular*1.5 + NH)]
    where [otExcessHours = max(0, hoursRegular/max(1, scheduleDays) - 8)];
    with 40 regular hours or fewer it is [hoursRegular*payRegular]. *)
Theorem weeklyOnW2Taxable_split (d : document) :
  let otExcessHours := Spec.otExcessHours (hrsR d) (scheduleDays d) in
  let NH := Spec.hourlyStipend ((houseDaily d + mealsDaily d) * num "7") (hrsR d) in
  ((hrsR d >? num "40") = true ->
   weeklyOnW2Taxable d =
     (hrsR d - otExcessHours * scheduleDays d) * payR d
     + otExcessHours * scheduleDays d * (payR d * num "1.5" + NH)) /\
  ((hrsR d <=? num "40") = true ->
   weeklyOnW2Taxable d = hrsR d * payR d).
Proof.
  cbv zeta. rewrite <- OT_if_above_8h_max. split; intros H.
  - unfold weeklyOnW2Taxable, OT_rate_if_above_40, PT_OVERTIME. rewrite H. reflexivity.
  - unfold weeklyOnW2Taxable. rewrite (le_not_gt _ _ H). reflexivity.
Qed.

Lemma weeklyOnW2Taxable_split_witness :
  (hrsR page_45_hours >? num "40") = true /\
  toString (Spec.otExcessHours (hrsR page_45_hours) (scheduleDays page_45_hours)) = "1" /\
  weeklyOnW2Taxable page_45_hours =
    (num "45" - num "1" * num "5") * num "30"
    + num "1" * num "5" * (num "30" * num "1.5" + num "245" / num "40").
Proof.
  split; [vm_compute; reflexivity|].
  split; [vm_compute; reflexivity|].
  rewrite (proj1 (weeklyOnW2Taxable_split page_45_hours)); vm_compute; reflexivity.
Defined.

(** ** Sick hours *)

(** C3 as worded fails on the code: filled in automatically, the sick
    hours of 520 contract hours are read back as 17.33, not as 520/30; and
    with the check box cleared and nothing entered they are 520/30, not 0. *)
Lemma sick_hours_as_specified_counterexample :
  (autoSick page_auto_sick = true /\
   toString (totalContractHours page_auto_sick / num "30") = "17.333333333333332" /\
   toString (sickHours page_auto_sick) = "17.33" /\
   ~ sick_hours_as_specified page_auto_sick) /\
  (autoSick page_manual_sick = false /\
   valNum page_manual_sick "sick_hours" zero = zero /\
   toString (sickHours page_manual_sick) = "17.333333333333332" /\
   ~ sick_hours_as_specified page_manual_sick).
Proof.
  repeat split; try (vm_compute; reflexivity);
    intros H; vm_compute in H; discriminate H.
Qed.

(** C3, amended. When the check box is checked or absent, the sick hours
    are [totalContractHours / 30] as read back from the sick-hours field:
    that value printed with two decimals and parsed again when the field
    exists and the value is positive (the value itself should the text not
    parse to a finite number), and the value itself when the field is
    absent or the value is not positive. When the check box is cleared,
    they are the field's value, and [totalContractHours / 30] when the
    field is missing or does not parse to a finite number. *)
Theorem sickHours_read_back (d : document) :
  autoSickHours d = totalContractHours d / num "30" /\
  sickHours d =
    if autoSick d then
      match d !! "sick_hours" with
      | None => autoSickHours d
      | Some _ =>
          if autoSickHours d >? zero then
            let v := parseFloat (toFixed (autoSickHours d) 2) in
            if isFinite v then v else autoSickHours d
          else autoSickHours d
      end
    else valNum d "sick_hours" (autoSickHours d).
Proof.
  split; [reflexivity|].
  unfold sickHours. rewrite fill_sick_hours_alter.
  destruct (autoSick d).
  - unfold valNum, el. rewrite lookup_alter_eq.
    destruct (d !! "sick_hours") as [n|]; simpl; [|reflexivity].
    destruct (autoSickHours d >? zero); reflexivity.
  - rewrite alter_id by reflexivity. reflexivity.
Qed.

(** ** The overtime pay field *)

(** C4 as worded fails on the code: a regular pay of 33.33 leaves 49.99 in
    the field, not 49.995, and a negative regular pay leaves it empty. *)
Lemma pay_ot_as_specified_counterexample :
  (toString (payR page_pay_33_33 * num "1.5") = "49.995" /\
   value <$> recalc plain_USD page_pay_33_33 !! "pay_ot" = Some "49.99" /\
   ~ pay_ot_as_specified plain_USD page_pay_33_33) /\
  (toString (payR page_pay_negative * num "1.5") = "-15" /\
   value <$> recalc plain_USD page_pay_negative !! "pay_ot" = Some "" /\
   ~ pay_ot_as_specified plain_USD page_pay_negative).
Proof.
  repeat split; try (vm_compute; reflexivity);
    intros H; vm_compute in H; discriminate H.
Qed.

(** C4, amended. Whatever the overtime pay field held, a pass replaces it:
    by [payRegular * 1.5] printed with two decimals when the regular pay is
    positive, and by the empty text otherwise; the overtime rate used in
    the calculation is [payRegular * 1.5] in every case. *)
Theorem pay_ot_written (toLocaleString : number -> string) (d : document) :
  PT_OVERTIME d = payR d * num "1.5" /\
  recalc toLocaleString d !! "pay_ot" =
    set_value (if payR d >? zero then toFixed (payR d * num "1.5") 2 else "")
      <$> d !! "pay_ot".
Proof. split; [reflexivity|]. rewrite lookup_recalc. reflexivity. Qed.

(** ** Orientation *)

(** C5. The orientation pay rate is the fixed 16.5 for a NonBillable
    orientation and [payRegular + HA_hourly + MI_hourly] for a Billable
    one; the total orientation pay is the orientation hours times that
    rate; and the orientation cost per hour is the total over the regular
    contract hours only for NonBillable with positive regular contract
    hours, 0 otherwise. *)
Theorem orientation_pay (d : document) (o : Spec.orientation) :
  Spec.orientation_of (orientType d) = Some o ->
  orientPayRatePerHr d =
    match o with
    | Spec.NonBillable => num "16.5"
    | Spec.Billable => payR d + HA_hourly d + MI_hourly d
    end /\
  HA_hourly d = Spec.hourlyStipend (houseDaily d * num "7") (hrsR d) /\
  MI_hourly d = Spec.hourlyStipend (mealsDaily d * num "7") (hrsR d) /\
  totalOrientationPay d = orientHours d * orientPayRatePerHr d /\
  orientationHourly d =
    match o with
    | Spec.NonBillable =>
        if contractRegularHours d >? zero
        then totalOrientationPay d / contractRegularHours d
        else zero
    | Spec.Billable => zero
    end.
Proof.
  intros Ho. apply orientation_of_Some in Ho.
  repeat split; try reflexivity.
  - unfold orientPayRatePerHr, effectiveOrientPay. destruct o; rewrite Ho; reflexivity.
  - unfold orientationHourly. destruct o; rewrite Ho; reflexivity.
Qed.

Lemma orientation_pay_witness :
  Spec.orientation_of (orientType page_billable) = Some Spec.Billable /\
  orientPayRatePerHr page_billable =
    payR page_billable + HA_hourly page_billable + MI_hourly page_billable /\
  orientationHourly page_billable = zero.
Proof.
  split; [vm_compute; reflexivity|].
  destruct (orientation_pay page_billable Spec.Billable) as (H1 & _ & _ & _ & H2);
    [vm_compute; reflexivity|].
  split; assumption.
Defined.

(** ** The gauge *)

Lemma num_20 : num "20" = S754_finite false 5629499534213120 (-48).
Proof. reflexivity. Qed.

Lemma lt_not_eq x y : (x <? y) = true -> (x =? y) = false.
Proof. unfold lt, eq. destruct (compare x y) as [[]|]; congruence. Qed.

Lemma lt_not_ge x y : (x <? y) = true -> (x >=? y) = false.
Proof. unfold lt, ge. destruct (compare x y) as [[]|]; congruence. Qed.

Lemma ge_not_lt x y : (x >=? y) = true -> (x <? y) = false.
Proof. unfold lt, ge. destruct (compare x y) as [[]|]; congruence. Qed.

Lemma le_zero_not_lt x : (zero <=? x) = true -> (x <? zero) = false.
Proof. apply ge_not_lt. Qed.

(** Numbers are ordered one way or the other; only NaN is not. *)
Lemma not_lt_ge x y :
  isNaN x = false -> isNaN y = false -> (x <? y) = false -> (x >=? y) = true.
Proof.
  unfold lt, ge.
  destruct x as [[]|[]| |[] m1 e1], y as [[]|[]| |[] m2 e2]; cbn [compare isNaN];
    try discriminate; try reflexivity; intros _ _;
    match goal with |- context [?a ?= ?b] => destruct (a ?= b) end;
    congruence.
Qed.

Lemma gt_not_nan x y : (x >? y) = true -> isNaN x = false.
Proof. unfold gt, lt. destruct x, y; simpl; congruence. Qed.

(** A number that is at least a positive finite one is above 0. *)
Lemma ge_positive x m e :
  (x >=? S754_finite false m e) = true -> compare x zero = Some Gt.
Proof.
  unfold ge. destruct x as [[]|[]| |s mx ex]; cbn [compare]; try discriminate; auto.
  destruct s; auto.
  pose proof (scaled_neg (Z.min ex e) mx ex ltac:(lia)).
  pose proof (scaled_pos (Z.min ex e) m e ltac:(lia)).
  destruct (Z.compare_spec (scaled (Z.min ex e) true mx ex) (scaled (Z.min ex e) false m e));
    intros; try discriminate; lia.
Qed.

Lemma lookup_renderGauge_message fmt margin target (d : document) :
  renderGauge fmt margin target d !! "ma_message" =
  set_textContent (gauge_message fmt margin target d) <$> d !! "ma_message".
Proof.
  rewrite renderGauge_alter, lookup_alter_ne, lookup_alter_eq, lookup_alter_ne by done.
  reflexivity.
Qed.

Lemma lookup_renderGauge_arc fmt margin target (d : document) :
  renderGauge fmt margin target d !! "gaugeArc" =
  gauge_arc margin target <$> d !! "gaugeArc".
Proof.
  rewrite renderGauge_alter, lookup_alter_eq, !lookup_alter_ne by done.
  reflexivity.
Qed.

(** C6. With the fixed target of 20 the gauge reads: no input when the
    margin is 0 and the bill rate entered is 0; negative when the margin is
    below 0; below target when the margin is at least 0 and below the
    target (and it is not the no-input case); healthy when the margin is
    at least the target, so also at the target itself, and then green;
    amber when the margin is above 0 and below the target, red otherwise;
    and the progress fraction is [clamp(margin / (2*target), 0, 1)]. The
    message and the arc of the page are set accordingly. *)
Theorem gauge_rule (toLocaleString : number -> string) (margin : number) (d : document) :
  let target := num "20" in
  let bill := valNum d "bill_regular" zero in
  let message := gauge_message toLocaleString margin target d in
  let color := gauge_stroke margin target in
  ((margin =? zero) = true -> (bill =? zero) = true ->
   message = "Enter numbers to analyze margin.") /\
  ((margin <? zero) = true ->
   message = "Margin is negative. Review pay rates and bill rates.") /\
  ((zero <=? margin) = true -> (margin <? target) = true ->
   (margin =? zero) && (bill =? zero) = false ->
   message = "Margin is below target of " ++ fmtUSD toLocaleString target ++ ".") /\
  ((margin >=? target) = true ->
   message = "Margin looks healthy." /\ color = "#1e8e3e") /\
  ((margin =? target) = true ->
   message = "Margin looks healthy." /\ color = "#1e8e3e") /\
  ((margin >? zero) = true -> (margin <? target) = true -> color = "#f9ab00") /\
  ((margin >=? target) = false -> (margin >? zero) && (margin <? target) = false ->
   color = "#d93025") /\
  gauge_progress margin target =
    Spec.clamp (margin / (num "2" * target)) zero (num "1") /\
  renderGauge toLocaleString margin target d !! "ma_message" =
    set_textContent message <$> d !! "ma_message" /\
  renderGauge toLocaleString margin target d !! "gaugeArc" =
    (fun arc =>
       arc |> set_attribute "stroke-dasharray"
                (toString (num "2" * Math_PI * num "60"))
           |> set_attribute "stroke-dashoffset"
                (toString (num "2" * Math_PI * num "60"
                           - gauge_progress margin target * (num "2" * Math_PI * num "60")))
           |> set_stroke color) <$> d !! "gaugeArc".
Proof.
  cbv zeta.
  assert (forall m : number, (m >=? num "20") = true ->
            gauge_message toLocaleString m (num "20") d = "Margin looks healthy." /\
            gauge_stroke m (num "20") = "#1e8e3e") as Hhealthy.
  { intros m H. unfold gauge_message, gauge_stroke. rewrite H.
    rewrite (ge_not_lt _ _ H). rewrite num_20 in H. apply ge_positive in H.
    unfold eq, lt at 1. rewrite H. split; reflexivity. }
  repeat apply conj.
  - intros H1 H2. unfold gauge_message. rewrite H1, H2. reflexivity.
  - intros H. unfold gauge_message. rewrite (lt_not_eq _ _ H), H. reflexivity.
  - intros H1 H2 H3. unfold gauge_message.
    rewrite H3, (le_zero_not_lt _ H1), H2. reflexivity.
  - apply Hhealthy.
  - intros H. apply Hhealthy. unfold ge. unfold eq in H.
    destruct (compare margin (num "20")) as [[]|]; congruence.
  - intros H1 H2. unfold gauge_stroke. rewrite (lt_not_ge _ _ H2), H1. reflexivity.
  - intros H1 H2. unfold gauge_stroke. rewrite H1.
    destruct (margin >? zero) eqn:H3; [|reflexivity].
    simpl in H2. apply gt_not_nan in H3.
    rewrite (not_lt_ge margin (num "20") H3 eq_refl H2) in H1. discriminate.
  - unfold gauge_progress, Spec.clamp.
    change (num "20" >? zero) with true.
    change (num "20" * num "2") with (num "2" * num "20"). reflexivity.
  - apply lookup_renderGauge_message.
  - rewrite lookup_renderGauge_arc. reflexivity.
Qed.

Lemma gauge_rule_witness :
  (num "20" >=? num "20") = true /\
  gauge_message plain_USD (num "20") (num "20") page_example = "Margin looks healthy." /\
  gauge_stroke (num "20") (num "20") = "#1e8e3e" /\
  toString (gauge_progress (num "20") (num "20")) = "0.5".
Proof.
  assert ((num "20" >=? num "20") = true) as Hge by (vm_compute; reflexivity).
  destruct (gauge_rule plain_USD (num "20") page_example)
    as (_ & _ & _ & H & _ & _ & _ & Hp & _).
  destruct (H Hge) as [Hm Hc].
  repeat apply conj; [exact Hge|exact Hm|exact Hc|].
  rewrite Hp. vm_compute. reflexivity.
Defined.

(** ** Finite outputs *)

(** What is formatted as currency is a finite number. *)
Lemma fmtUSD_finite (toLocaleString : number -> string) v :
  exists w, isFinite w = true /\ fmtUSD toLocaleString v = toLocaleString w.
Proof.
  unfold fmtUSD. destruct (isFinite v) eqn:E.
  - exists v. split; [exact E|reflexivity].
  - exists zero. split; reflexivity.
Qed.

Lemma currency_writes (toLocaleString : number -> string) (d : document) :
  Forall (fun k => exists v,
            patch (writes toLocaleString d) k = set_textContent (fmtUSD toLocaleString v))
    currency_ids.
Proof.
  unfold currency_ids.
  repeat (apply Forall_cons; split); [..|by apply Forall_nil]; eexists; reflexivity.
Qed.

(** Every amount a pass shows is formatted from a finite number. *)
Lemma currency_outputs_finite (toLocaleString : number -> string) (d : document) k :
  k ∈ currency_ids ->
  exists w, isFinite w = true /\
    recalc toLocaleString d !! k = set_textContent (toLocaleString w) <$> d !! k.
Proof.
  intros Hk. rewrite lookup_recalc.
  pose proof (currency_writes toLocaleString d) as Hall.
  rewrite Forall_forall in Hall. destruct (Hall k Hk) as [v ->].
  destruct (fmtUSD_finite toLocaleString v) as (w & Hw & ->).
  exists w. split; [exact Hw|reflexivity].
Qed.

(** The daily-hours divisor is a positive finite number. *)
Lemma dailyRegularHours_divisor d :
  exists m e, Math_max (num "1") (scheduleDays d) = S754_finite false m e.
Proof. apply Math_max_1_finite, isFinite_valNum. reflexivity. Qed.

(** C7, at entries that are finite but whose products overflow. The pass
    returns, and the currency outputs are formatted from 0; but the hourly
    margin is NaN, the overtime pay and sick hours fields receive the text
    Infinity, and the gauge gets a progress of NaN, a dash offset of NaN,
    the healthy message and the red stroke. *)
Theorem overflow_reaches_outputs :
  let d := page_overflow in
  let d' := recalc plain_USD d in
  (isFinite (payR d) = true /\ isFinite (hrsR d) = true /\ isFinite (weeks d) = true) /\
  PT_OVERTIME d = Infinity /\
  autoSickHours d = Infinity /\
  hourlyMargin d = NaN /\
  value <$> d' !! "pay_ot" = Some "Infinity" /\
  value <$> d' !! "sick_hours" = Some "Infinity" /\
  textContent <$> d' !! "gm_hourly" = Some "$0.00" /\
  gauge_progress (hourlyMargin d) (num "20") = NaN /\
  (fun arc => attributes arc !! "stroke-dashoffset") <$> d' !! "gaugeArc" = Some (Some "NaN") /\
  stroke <$> d' !! "gaugeArc" = Some "#d93025" /\
  textContent <$> d' !! "ma_message" = Some "Margin looks healthy.".
Proof. cbv zeta. repeat apply conj; vm_compute; reflexivity. Qed.

(** ** No regular contract hours *)

Lemma eq_zero_not_gt x : (x =? zero) = true -> (x >? zero) = false.
Proof.
  unfold eq, gt, lt. rewrite (compare_antisym x zero).
  destruct (compare x zero) as [[]|]; simpl; congruence.
Qed.

(** C8. When the regular contract hours ([hoursRegular * contractWeeks])
    are 0, the hourly shares of the start bonus, the completion bonus, the
    BCG reimbursement, the sick pay and the orientation are all 0. *)
Theorem no_regular_hours_no_spread (d : document) :
  contractRegularHours d = hrsR d * weeks d /\
  ((contractRegularHours d =? zero) = true ->
   startBonusHourly d = zero /\
   completeBonusHourly d = zero /\
   bcgHourly d = zero /\
   sickHourly d = zero /\
   orientationHourly d = zero).
Proof.
  split; [reflexivity|]. intros H. apply eq_zero_not_gt in H.
  unfold startBonusHourly, completeBonusHourly, bcgHourly, sickHourly, orientationHourly.
  rewrite H, andb_false_r. repeat split; reflexivity.
Qed.

Lemma no_regular_hours_no_spread_witness :
  (contractRegularHours page_no_hours =? zero) = true /\
  bonusStart page_no_hours = num "1000" /\
  startBonusHourly page_no_hours = zero /\
  completeBonusHourly page_no_hours = zero /\
  bcgHourly page_no_hours = zero /\
  sickHourly page_no_hours = zero /\
  orientationHourly page_no_hours = zero.
Proof.
  split; [vm_compute; reflexivity|].
  split; [vm_compute; reflexivity|].
  apply (proj2 (no_regular_hours_no_spread page_no_hours)). vm_compute. reflexivity.
Defined.

(** ** Running twice, and the orientation pay field *)

(** C9. A second pass over the page the first pass left, with its
    write-backs of the sick hours and the overtime pay, leaves every
    element as the first pass left it. *)
Theorem recalc_idempotent (toLocaleString : number -> string) (d : document) :
  recalc toLocaleString (recalc toLocaleString d) = recalc toLocaleString d.
Proof.
  rewrite (recalc_writes toLocaleString (recalc toLocaleString d)).
  rewrite (agree_writes d (recalc toLocaleString d)).
  - apply map_eq. intros k.
    rewrite lookup_apply_writes by apply writes_keys_NoDup.
    rewrite lookup_recalc. destruct (d !! k) as [e|]; simpl; [|reflexivity].
    rewrite patch_idem. reflexivity.
  - intros k H1 H2 _. rewrite lookup_recalc.
    destruct (d !! k) as [e|]; simpl; [|reflexivity].
    rewrite patch_value by assumption. reflexivity.
  - intros k. rewrite lookup_recalc.
    destruct (d !! k) as [e|]; simpl; [|reflexivity].
    rewrite patch_checked. reflexivity.
  - intros H. rewrite lookup_recalc.
    destruct (d !! "sick_hours") as [e|]; simpl; [|reflexivity].
    rewrite patch_value_sick by assumption. reflexivity.
  - right. rewrite lookup_recalc.
    destruct (d !! "orient_pay") as [e|]; simpl; [|reflexivity].
    rewrite patch_value by discriminate. reflexivity.
Qed.

(** C10. For a page whose orientation selector holds Billable or Non
    Billable, replacing the text of the orientation pay field changes
    nothing a pass derives or writes: the resulting page is the same,
    but for that field itself. *)
Theorem orient_pay_unused (toLocaleString : number -> string)
    (d : document) (v : string) (o : Spec.orientation) :
  Spec.orientation_of (orientType d) = Some o ->
  let d' := setValue "orient_pay" v d in
  hourlyMargin d' = hourlyMargin d /\
  totalOrientationPay d' = totalOrientationPay d /\
  recalc toLocaleString d' = setValue "orient_pay" v (recalc toLocaleString d) /\
  (forall k, k <> "orient_pay" ->
     recalc toLocaleString d' !! k = recalc toLocaleString d !! k).
Proof.
  intros Ho. cbv zeta. rewrite !setValue_alter.
  assert (forall k, k <> "sick_hours" -> k <> "pay_ot" -> k <> "orient_pay" ->
            value <$> alter (set_value v) "orient_pay" d !! k = value <$> d !! k) as Hv.
  { intros k _ _ Hk. rewrite lookup_alter_ne by congruence. reflexivity. }
  assert (forall k,
            checked <$> alter (set_value v) "orient_pay" d !! k = checked <$> d !! k) as Hc.
  { intros k. rewrite lookup_alter. case_decide; [subst k|reflexivity].
    destruct (d !! "orient_pay"); reflexivity. }
  assert (autoSick d = false ->
          value <$> alter (set_value v) "orient_pay" d !! "sick_hours" =
          value <$> d !! "sick_hours") as Hs.
  { intros _. rewrite lookup_alter_ne by discriminate. reflexivity. }
  assert (Spec.orientation_of (orientType d) <> None \/
          value <$> alter (set_value v) "orient_pay" d !! "orient_pay" =
          value <$> d !! "orient_pay") as Hor by (left; congruence).
  pose proof (agree_writes d _ Hv Hc Hs Hor toLocaleString) as Hw.
  assert (recalc toLocaleString (alter (set_value v) "orient_pay" d) =
          alter (set_value v) "orient_pay" (recalc toLocaleString d)) as Hr.
  { rewrite (recalc_writes toLocaleString (alter _ _ d)), Hw.
    apply map_eq. intros k.
    rewrite lookup_apply_writes by apply writes_keys_NoDup.
    rewrite !lookup_alter. case_decide as Hk.
    - subst k. rewrite lookup_recalc.
      destruct (d !! "orient_pay") as [e|]; reflexivity.
    - rewrite lookup_recalc. reflexivity. }
  repeat apply conj.
  - apply (agree_hourlyMargin d _ Hv Hc Hs Hor).
  - apply (agree_totalOrientationPay d _ Hv Hor).
  - exact Hr.
  - intros k Hk. rewrite Hr, lookup_alter_ne by congruence. reflexivity.
Qed.

Lemma orient_pay_unused_witness :
  Spec.orientation_of (orientType page_billable) = Some Spec.Billable /\
  orientPay (setValue "orient_pay" "99" page_billable) = num "99" /\
  orientPay page_billable = num "16.5" /\
  recalc plain_USD (setValue "orient_pay" "99" page_billable) =
  setValue "orient_pay" "99" (recalc plain_USD page_billable).
Proof.
  split; [vm_compute; reflexivity|].
  split; [vm_compute; reflexivity|].
  split; [vm_compute; reflexivity|].
  apply (orient_pay_unused plain_USD page_billable "99" Spec.Billable).
  vm_compute. reflexivity.
Defined.

(** ** Writing to the page *)

Lemma lookup_setText id t (d : document) k :
  setText id t d !! k = if decide (k = id) then set_textContent t <$> d !! k else d !! k.
Proof. rewrite setText_alter, lookup_alter. repeat case_decide; congruence. Qed.

Lemma lookup_setValue id v (d : document) k :
  setValue id v d !! k = if decide (k = id) then set_value v <$> d !! k else d !! k.
Proof. rewrite setValue_alter, lookup_alter. repeat case_decide; congruence. Qed.

(** X1. [setText] and [setValue] change one element and create none. On
    an id the page lacks they do nothing; a second write of the same kind
    to the same id replaces the first; writes to different ids commute;
    and a text write and a value write commute, whatever their ids. *)
Theorem writes_compose (d : document) (id id' t t' v v' : string) :
  (d !! id = None -> setText id t d = d /\ setValue id v d = d) /\
  (forall k, is_Some (setText id t d !! k) <-> is_Some (d !! k)) /\
  (forall k, is_Some (setValue id v d !! k) <-> is_Some (d !! k)) /\
  setText id t' (setText id t d) = setText id t' d /\
  setValue id v' (setValue id v d) = setValue id v' d /\
  (id <> id' -> setText id t (setText id' t' d) = setText id' t' (setText id t d)) /\
  (id <> id' -> setValue id v (setValue id' v' d) = setValue id' v' (setValue id v d)) /\
  setText id t (setValue id' v d) = setValue id' v (setText id t d).
Proof.
  repeat apply conj.
  - intros H. unfold setText, setValue, el. rewrite H. split; reflexivity.
  - intros k. rewrite lookup_setText. case_decide; [|reflexivity].
    rewrite fmap_is_Some. reflexivity.
  - intros k. rewrite lookup_setValue. case_decide; [|reflexivity].
    rewrite fmap_is_Some. reflexivity.
  - apply map_eq. intros k. rewrite !lookup_setText.
    case_decide; [|reflexivity]. destruct (d !! k); reflexivity.
  - apply map_eq. intros k. rewrite !lookup_setValue.
    case_decide; [|reflexivity]. destruct (d !! k); reflexivity.
  - intros Hne. apply map_eq. intros k. rewrite !lookup_setText.
    repeat case_decide; congruence.
  - intros Hne. apply map_eq. intros k. rewrite !lookup_setValue.
    repeat case_decide; congruence.
  - apply map_eq. intros k. rewrite !lookup_setText, !lookup_setValue, !lookup_setText.
    repeat case_decide; try reflexivity; destruct (d !! k); reflexivity.
Qed.

Lemma writes_compose_witness :
  "gm_hourly" <> "gm_weekly" /\
  setText "gm_hourly" "a" (setText "gm_weekly" "b" page_blank) =
  setText "gm_weekly" "b" (setText "gm_hourly" "a" page_blank) /\
  page_blank !! "gm_monthly" = None /\
  setText "gm_monthly" "a" page_blank = page_blank.
Proof.
  assert ("gm_hourly" <> "gm_weekly") as Hne by discriminate.
  assert (page_blank !! "gm_monthly" = None) as Hno by (vm_compute; reflexivity).
  destruct (writes_compose page_blank "gm_hourly" "gm_weekly" "a" "b" "" "")
    as (_ & _ & _ & _ & _ & Hc & _).
  destruct (writes_compose page_blank "gm_monthly" "" "a" "" "" "") as (Hm & _).
  repeat apply conj; [exact Hne|exact (Hc Hne)|exact Hno|exact (proj1 (Hm Hno))].
Defined.



(** ** What a pass leaves alone *)

Ltac listed := apply (bool_decide_unpack _); vm_compute; exact I.

Lemma writes_keys fmt d : fst <$> writes fmt d ≡ₚ written_ids.
Proof.
  unfold writes, written_ids, currency_ids. cbn [fmap list_fmap fst].
  apply (bool_decide_unpack _). vm_compute. exact I.
Qed.

Lemma patch_unwritten fmt d k : k ∉ written_ids -> patch (writes fmt d) k = id.
Proof.
  intros H. unfold patch. rewrite entry_None; [reflexivity|].
  rewrite writes_keys. exact H.
Qed.

Lemma patch_look fmt d k e :
  k <> "gaugeArc" ->
  attributes (patch (writes fmt d) k e) = attributes e /\
  stroke (patch (writes fmt d) k e) = stroke e.
Proof.
  intros Hk.
  apply (patch_elim (fun f => attributes (f e) = attributes e /\ stroke (f e) = stroke e));
    [split; reflexivity|].
  each_write; intros Hk'; try (split; reflexivity); try congruence.
  destruct (autoSick d); split; reflexivity.
Qed.

Lemma patch_textContent fmt d k e :
  k ∈ input_ids -> textContent (patch (writes fmt d) k e) = textContent e.
Proof.
  intros Hk.
  apply (patch_elim (fun f => textContent (f e) = textContent e)); [reflexivity|].
  each_write; intros <-; try reflexivity;
    try (destruct (autoSick d); reflexivity);
    exfalso; revert Hk; apply (bool_decide_unpack _); vm_compute; exact I.
Qed.

(** X3. A pass adds and removes no element. It leaves every check box as
    it is; every value but those of the sick hours and overtime pay
    fields; the sick hours field too when the hours are entered by hand;
    the text of every element it reads; the attributes and the stroke of
    every element but the gauge arc; and every element that is not one of
    those it writes. *)
Theorem recalc_keeps_the_form (toLocaleString : number -> string) (d : document) (k : string) :
  (is_Some (recalc toLocaleString d !! k) <-> is_Some (d !! k)) /\
  checked <$> recalc toLocaleString d !! k = checked <$> d !! k /\
  (k <> "sick_hours" -> k <> "pay_ot" ->
   value <$> recalc toLocaleString d !! k = value <$> d !! k) /\
  (autoSick d = false ->
   recalc toLocaleString d !! "sick_hours" = d !! "sick_hours") /\
  (k ∈ input_ids -> textContent <$> recalc toLocaleString d !! k = textContent <$> d !! k) /\
  (k <> "gaugeArc" ->
   attributes <$> recalc toLocaleString d !! k = attributes <$> d !! k /\
   stroke <$> recalc toLocaleString d !! k = stroke <$> d !! k) /\
  (k ∉ written_ids -> recalc toLocaleString d !! k = d !! k).
Proof.
  rewrite !lookup_recalc. split; [apply fmap_is_Some|]. repeat apply conj.
  - destruct (d !! k) as [e|]; simpl; [|reflexivity]. rewrite patch_checked. reflexivity.
  - intros H1 H2. destruct (d !! k) as [e|]; simpl; [|reflexivity].
    rewrite patch_value by assumption. reflexivity.
  - intros H. unfold patch. cbn. rewrite H. destruct (d !! "sick_hours"); reflexivity.
  - intros H. destruct (d !! k) as [e|]; simpl; [|reflexivity].
    rewrite patch_textContent by assumption. reflexivity.
  - intros H. destruct (d !! k) as [e|]; simpl; [|split; reflexivity].
    destruct (patch_look toLocaleString d k e H) as [-> ->]. split; reflexivity.
  - intros H. rewrite patch_unwritten by assumption. destruct (d !! k); reflexivity.
Qed.

Lemma recalc_keeps_the_form_witness :
  "bill_regular" <> "sick_hours" /\ "bill_regular" <> "pay_ot" /\
  value <$> recalc plain_USD page_example !! "bill_regular" = Some "50" /\
  ("reset" ∉ written_ids) /\
  recalc plain_USD (<["reset" := field ""]> page_example) !! "reset" = Some (field "") /\
  autoSick page_manual_10 = false /\
  value <$> recalc plain_USD page_manual_10 !! "sick_hours" = Some "10".
Proof.
  assert ("bill_regular" <> "sick_hours") as H1 by discriminate.
  assert ("bill_regular" <> "pay_ot") as H2 by discriminate.
  assert ("reset" ∉ written_ids) as H3 by listed.
  assert (autoSick page_manual_10 = false) as H4 by (vm_compute; reflexivity).
  destruct (recalc_keeps_the_form plain_USD page_example "bill_regular")
    as (_ & _ & Hv & _).
  destruct (recalc_keeps_the_form plain_USD (<["reset" := field ""]> page_example) "reset")
    as (_ & _ & _ & _ & _ & _ & Hr).
  destruct (recalc_keeps_the_form plain_USD page_manual_10 "")
    as (_ & _ & _ & Hs & _).
  repeat apply conj; try assumption.
  - rewrite (Hv H1 H2). vm_compute. reflexivity.
  - rewrite (Hr H3). vm_compute. reflexivity.
  - rewrite (Hs H4). vm_compute. reflexivity.
Defined.

(** ** What a pass depends on *)

Create Rewrite HintDb reads.

Section Reads.

Variables d d' : document.

Hypothesis Hvalue : forall k, k ∈ read_ids -> value <$> d' !! k = value <$> d !! k.
Hypothesis HsickHours : sickHours d' = sickHours d.
Hypothesis Horient :
  Spec.orientation_of (orientType d) <> None \/
  value <$> d' !! "orient_pay" = value <$> d !! "orient_pay".

Ltac same_field := apply valNum_ext, Hvalue; listed.

Lemma reads_client : client d' = client d.
Proof.
  unfold client, el. pose proof (Hvalue "client" ltac:(listed)) as H.
  destruct (d' !! "client"), (d !! "client"); simpl in H; try discriminate; auto.
  injection H as ->. reflexivity.
Qed.

Lemma reads_orientType : orientType d' = orientType d.
Proof.
  unfold orientType, el. pose proof (Hvalue "orient_type" ltac:(listed)) as H.
  destruct (d' !! "orient_type"), (d !! "orient_type"); simpl in H; try discriminate; auto.
  injection H as ->. reflexivity.
Qed.

Lemma reads_billR : billR d' = billR d. Proof. same_field. Qed.
Lemma reads_billOT : billOT d' = billOT d. Proof. same_field. Qed.
Lemma reads_payR : payR d' = payR d. Proof. same_field. Qed.
Lemma reads_hrsR : hrsR d' = hrsR d. Proof. same_field. Qed.
Lemma reads_hrsOT : hrsOT d' = hrsOT d. Proof. same_field. Qed.
Lemma reads_weeks : weeks d' = weeks d. Proof. same_field. Qed.
Lemma reads_houseDaily : houseDaily d' = houseDaily d. Proof. same_field. Qed.
Lemma reads_mealsDaily : mealsDaily d' = mealsDaily d. Proof. same_field. Qed.
Lemma reads_orientHours : orientHours d' = orientHours d. Proof. same_field. Qed.
Lemma reads_bonusStart : bonusStart d' = bonusStart d. Proof. same_field. Qed.
Lemma reads_bonusComplete : bonusComplete d' = bonusComplete d. Proof. same_field. Qed.
Lemma reads_bcgReimb : bcgReimb d' = bcgReimb d. Proof. same_field. Qed.
Lemma reads_scheduleDays : scheduleDays d' = scheduleDays d. Proof. same_field. Qed.

#[local] Hint Rewrite reads_client reads_orientType reads_billR reads_billOT reads_payR
  reads_hrsR reads_hrsOT reads_weeks reads_houseDaily reads_mealsDaily
  reads_orientHours reads_bonusStart reads_bonusComplete reads_bcgReimb
  reads_scheduleDays HsickHours : reads.

Ltac reads := autorewrite with reads; reflexivity.

Lemma reads_orientPayRatePerHr : orientPayRatePerHr d' = orientPayRatePerHr d.
Proof.
  unfold orientPayRatePerHr, effectiveOrientPay, HA_hourly, MI_hourly.
  autorewrite with reads.
  destruct Horient as [H|H].
  - unfold Spec.orientation_of in H.
    destruct (String.eqb (orientType d) "Billable"); [reflexivity|].
    destruct (String.eqb (orientType d) "Non Billable"); [reflexivity|].
    congruence.
  - unfold orientPay. rewrite (valNum_ext d d') by exact H. reflexivity.
Qed.
#[local] Hint Rewrite reads_orientPayRatePerHr : reads.

Lemma reads_hourlyMargin : hourlyMargin d' = hourlyMargin d.
Proof.
  unfold hourlyMargin, orientationHourly, totalOrientationPay, sickHourly,
    startBonusHourly, completeBonusHourly, bcgHourly, NH, NW, ND, hrAfterFee, fee,
    contractRegularHours.
  reads.
Qed.

Lemma reads_weeklyOnW2Taxable : weeklyOnW2Taxable d' = weeklyOnW2Taxable d.
Proof.
  unfold weeklyOnW2Taxable, OT_rate_if_above_40, OT_if_above_8h, dailyRegularHours,
    PT_OVERTIME, NH, NW, ND.
  reads.
Qed.

Lemma reads_weeklyStipendNT : weeklyStipendNT d' = weeklyStipendNT d.
Proof. unfold weeklyStipendNT, NW, ND. reads. Qed.

Lemma reads_weeklyBillingClient : weeklyBillingClient d' = weeklyBillingClient d.
Proof. unfold weeklyBillingClient, hrAfterFee, otHrAfterFee, fee. reads. Qed.

Lemma reads_otMargin : otMargin d' = otMargin d.
Proof. unfold otMargin, otHrAfterFee, fee, PT_OVERTIME. reads. Qed.

Lemma reads_autoSickHours : autoSickHours d' = autoSickHours d.
Proof.
  unfold autoSickHours, totalContractHours, contractRegularHours, contractOTHours. reads.
Qed.

#[local] Hint Rewrite reads_hourlyMargin reads_weeklyOnW2Taxable reads_weeklyStipendNT
  reads_weeklyBillingClient reads_otMargin reads_autoSickHours : reads.

(** All that a pass writes, the sick hours apart, is the same. *)
Lemma reads_writes_tail fmt : tl (writes fmt d') = tl (writes fmt d).
Proof.
  unfold writes. cbn [tl].
  unfold contractNET, monthlyNET, weeklyNET, contractBillingClient, monthlyBillingClient,
    weeklyGross, totalWeeklyTaxableWithOT, sickHourly, bcgHourly, completeBonusHourly,
    startBonusHourly, totalOrientationPay, OT_rate_if_above_40, dailyRegularHours,
    PT_OVERTIME, NH, NW, ND, hrAfterFee, otHrAfterFee, fee, contractRegularHours.
  autorewrite with reads.
  rewrite (gauge_message_ext fmt _ _ d d') by (apply Hvalue; listed).
  reflexivity.
Qed.

Hypothesis Hauto : autoSick d' = autoSick d.

Lemma reads_writes fmt : writes fmt d' = writes fmt d.
Proof.
  pose proof (reads_writes_tail fmt) as Ht. unfold writes in *. cbn [tl] in Ht.
  rewrite Ht, Hauto, reads_autoSickHours. reflexivity.
Qed.

End Reads.

Lemma autoSick_ext (d d' : document) :
  checked <$> d' !! "auto_sick_calc" = checked <$> d !! "auto_sick_calc" ->
  autoSick d' = autoSick d.
Proof.
  unfold autoSick, sickBox, el.
  destruct (d' !! "auto_sick_calc"), (d !! "auto_sick_calc"); simpl; congruence.
Qed.

(** The sick hours are those of the field as the pass fills it in. *)
Lemma sickHours_ext (d d' : document) :
  autoSickHours d' = autoSickHours d ->
  value <$> fill_sick_hours d' !! "sick_hours" = value <$> fill_sick_hours d !! "sick_hours" ->
  sickHours d' = sickHours d.
Proof. intros Ha Hv. unfold sickHours. rewrite Ha. apply valNum_ext, Hv. Qed.

Lemma same_inputs_read (d d' : document) :
  same_inputs d d' ->
  (forall k, k ∈ read_ids -> value <$> d' !! k = value <$> d !! k) /\
  sickHours d' = sickHours d /\
  autoSick d' = autoSick d.
Proof.
  intros (Hv & Ho & Hc & Hp & Hs).
  assert (autoSick d' = autoSick d) as Ha by (apply autoSick_ext, Hc).
  assert (autoSickHours d' = autoSickHours d) as Hh.
  { unfold autoSickHours, totalContractHours, contractRegularHours, contractOTHours.
    rewrite (reads_hrsR d d' Hv), (reads_hrsOT d d' Hv), (reads_weeks d d' Hv).
    reflexivity. }
  repeat apply conj; [exact Hv| |exact Ha].
  apply sickHours_ext; [exact Hh|].
  rewrite !fill_sick_hours_alter, !lookup_alter_eq, Ha, Hh.
  destruct (autoSick d) eqn:E.
  - destruct Hp as [Hp1 Hp2].
    destruct (d' !! "sick_hours") as [e'|], (d !! "sick_hours") as [e|]; simpl;
      try reflexivity.
    + destruct (Hp1 ltac:(eauto)) as [? [=]].
    + destruct (Hp2 ltac:(eauto)) as [? [=]].
  - specialize (Hs eq_refl).
    destruct (d' !! "sick_hours"), (d !! "sick_hours"); simpl in *; congruence.
Qed.

Lemma same_inputs_writes fmt (d d' : document) :
  same_inputs d d' -> writes fmt d' = writes fmt d.
Proof.
  intros H. pose proof H as (_ & Ho & _).
  destruct (same_inputs_read d d' H) as (Hv & Hs & Ha).
  apply reads_writes; auto.
Qed.

Lemma recalc_same_inputs fmt (d d' : document) k :
  same_inputs d d' -> recalc fmt d' !! k = patch (writes fmt d) k <$> d' !! k.
Proof. intros H. rewrite lookup_recalc, (same_inputs_writes fmt d d' H). reflexivity. Qed.

(** X4. What a pass shows depends on the fields it reads and on nothing
    else on the page. For two pages with the same inputs the hourly margin
    is the same, an element that is the same on both ends up the same, and
    every amount and the message read the same wherever both pages have
    the element, whatever the outputs and the overtime pay field held
    before. *)
Theorem recalc_reads_inputs_only (toLocaleString : number -> string) (d d' : document) :
  same_inputs d d' ->
  hourlyMargin d' = hourlyMargin d /\
  (forall k, d' !! k = d !! k ->
     recalc toLocaleString d' !! k = recalc toLocaleString d !! k) /\
  (forall k, k ∈ "ma_message" :: currency_ids ->
     (is_Some (d' !! k) <-> is_Some (d !! k)) ->
     textContent <$> recalc toLocaleString d' !! k =
     textContent <$> recalc toLocaleString d !! k).
Proof.
  intros H. repeat apply conj.
  - pose proof H as (_ & Ho & _).
    destruct (same_inputs_read d d' H) as (Hv & Hs & _).
    apply reads_hourlyMargin; auto.
  - intros k Hk. rewrite (recalc_same_inputs _ d d') by exact H.
    rewrite lookup_recalc, Hk. reflexivity.
  - intros k Hk Hp. rewrite (recalc_same_inputs _ d d') by exact H.
    rewrite lookup_recalc.
    assert (exists t, patch (writes toLocaleString d) k = set_textContent t) as [t ->].
    { apply elem_of_cons in Hk as [->|Hk]; [eexists; reflexivity|].
      pose proof (currency_writes toLocaleString d) as Hall.
      rewrite Forall_forall in Hall. destruct (Hall k Hk) as [v ->]. eauto. }
    destruct Hp as [Hp1 Hp2].
    destruct (d' !! k) as [e'|], (d !! k) as [e|]; try reflexivity.
    + destruct (Hp1 ltac:(eauto)) as [? [=]].
    + destruct (Hp2 ltac:(eauto)) as [? [=]].
Qed.

Ltac each_listed H :=
  repeat (apply elem_of_cons in H as [->|H]); [..|by apply elem_of_nil in H].

Lemma recalc_reads_inputs_only_witness :
  let page := setValue "pay_ot" "99" (setText "gm_hourly" "stale" page_example) in
  same_inputs page_example page /\
  textContent <$> recalc plain_USD page !! "gm_hourly" = Some "$1.72".
Proof.
  cbv zeta.
  assert (forall k, k <> "pay_ot" -> k <> "gm_hourly" ->
            setValue "pay_ot" "99" (setText "gm_hourly" "stale" page_example) !! k =
            page_example !! k) as Hk.
  { intros k H1 H2. rewrite lookup_setValue, lookup_setText.
    repeat case_decide; congruence. }
  assert (same_inputs page_example
            (setValue "pay_ot" "99" (setText "gm_hourly" "stale" page_example))) as H.
  { unfold same_inputs. rewrite !Hk by discriminate.
    split; [|split; [|split; [|split]]]; try reflexivity.
    intros k Hin. rewrite Hk; [reflexivity| |]; intros ->; revert Hin; listed. }
  split; [exact H|].
  destruct (recalc_reads_inputs_only plain_USD page_example _ H) as (_ & _ & Ht).
  rewrite Ht.
  - vm_compute. reflexivity.
  - listed.
  - split; vm_compute; eauto.
Defined.

(** X5. An element that a pass does not read may be missing: the pass
    over the page without it is the pass over the page, without it. *)
Theorem missing_outputs_skipped (toLocaleString : number -> string) (d : document) (k : string) :
  k ∉ input_ids ->
  recalc toLocaleString (delete k d) = delete k (recalc toLocaleString d).
Proof.
  intros Hk.
  assert (forall j, j ∈ input_ids -> delete k d !! j = d !! j) as Hj.
  { intros j Hin. apply lookup_delete_ne. congruence. }
  assert (same_inputs d (delete k d)) as H.
  { unfold same_inputs. split; [|split; [|split; [|split]]].
    - intros j Hin. rewrite Hj; [reflexivity|].
      unfold input_ids. apply elem_of_app. left. exact Hin.
    - rewrite Hj by listed. reflexivity.
    - rewrite Hj by listed. reflexivity.
    - rewrite Hj by listed. reflexivity.
    - intros _. rewrite Hj by listed. reflexivity. }
  apply map_eq. intros j. rewrite (recalc_same_inputs _ d _ _ H).
  destruct (decide (k = j)) as [->|Hne].
  - rewrite !lookup_delete_eq. reflexivity.
  - rewrite !lookup_delete_ne by exact Hne. rewrite lookup_recalc. reflexivity.
Qed.

Lemma missing_outputs_skipped_witness :
  ("gm_hourly" ∉ input_ids) /\
  recalc plain_USD (delete "gm_hourly" page_example) =
  delete "gm_hourly" (recalc plain_USD page_example).
Proof.
  assert ("gm_hourly" ∉ input_ids) as H by listed.
  split; [exact H|]. exact (missing_outputs_skipped plain_USD page_example "gm_hourly" H).
Defined.

(** ** The overtime pay follows the regular pay *)

Lemma mul_finite_sign sx mx ex sy my ey :
  has_sign (xorb sx sy) (mul (S754_finite sx mx ex) (S754_finite sy my ey)).
Proof. unfold mul, SFmul. apply binary_round_aux_sign. lia. Qed.

Lemma or_zero_positive x : has_sign false x -> or_zero x = x.
Proof. destruct x as [[]|[]| |[] m e]; simpl; intros H; try easy. Qed.

Lemma num_1_5 : num "1.5" = S754_finite false 6755399441055744 (-52).
Proof. reflexivity. Qed.

Lemma lookup_sync (d : document) k :
  sync d !! k =
  match d !! "pay_regular" with
  | None => d !! k
  | Some w2 =>
      let w2Value := parseFloat (if String.eqb (value w2) "" then "0" else value w2) in
      patch [("pay_ot", set_value (if w2Value >? zero
                                   then toFixed (or_zero (w2Value * num "1.5")) 2
                                   else ""))] k <$> d !! k
  end.
Proof.
  unfold sync, el. destruct (d !! "pay_regular") as [w2|]; [|reflexivity].
  cbv zeta. unfold patch. cbn [entry].
  destruct (String.eqb_spec k "pay_ot") as [->|Hne].
  - destruct (d !! "pay_ot") as [ot|] eqn:E; [|rewrite E; reflexivity].
    rewrite lookup_insert_eq. reflexivity.
  - destruct (d !! "pay_ot") as [ot|] eqn:E.
    + rewrite lookup_insert_ne by congruence. destruct (d !! k); reflexivity.
    + destruct (d !! k); reflexivity.
Qed.

Lemma sync_values (d : document) k : k <> "pay_ot" -> sync d !! k = d !! k.
Proof.
  intros Hk. rewrite lookup_sync. destruct (d !! "pay_regular"); [|reflexivity].
  cbv zeta. unfold patch. cbn [entry].
  destruct (String.eqb_spec k "pay_ot"); [congruence|]. destruct (d !! k); reflexivity.
Qed.

Lemma same_inputs_sync (d : document) : same_inputs d (sync d).
Proof.
  unfold same_inputs. split; [|split; [|split; [|split]]].
  - intros k Hk. rewrite sync_values; [reflexivity|].
    intros ->. revert Hk. listed.
  - rewrite sync_values by discriminate. reflexivity.
  - rewrite sync_values by discriminate. reflexivity.
  - rewrite sync_values by discriminate. reflexivity.
  - intros _. rewrite sync_values by discriminate. reflexivity.
Qed.

(** X6. The input listener of the regular pay field runs [sync] and then a
    pass; the page it leaves is the one the pass alone leaves. *)
Theorem sync_before_recalc (toLocaleString : number -> string) (d : document) :
  pay_regular_input toLocaleString d = recalc toLocaleString d.
Proof.
  unfold pay_regular_input. apply map_eq. intros k.
  rewrite (recalc_same_inputs _ d _ _ (same_inputs_sync d)), lookup_recalc.
  destruct (decide (k = "pay_ot")) as [->|Hne].
  - rewrite lookup_sync. destruct (d !! "pay_regular"); [|reflexivity].
    destruct (d !! "pay_ot"); reflexivity.
  - rewrite sync_values by exact Hne. reflexivity.
Qed.

(** X7. Where the page has a regular pay field whose text does not read
    Infinity, [sync] fills the overtime pay field exactly as a pass does:
    with the regular pay times 1.5 in two decimals when the regular pay is
    a positive number, and with the empty text otherwise. *)
Theorem sync_as_recalc (toLocaleString : number -> string) (d : document) (w2 : element) :
  d !! "pay_regular" = Some w2 ->
  parseFloat (value w2) <> Infinity ->
  sync d = setValue "pay_ot" (if payR d >? zero then toFixed (payR d * num "1.5") 2 else "") d /\
  sync d !! "pay_ot" = recalc toLocaleString d !! "pay_ot".
Proof.
  intros Hw2 Hinf.
  assert (forall k, sync d !! k =
            patch [("pay_ot",
                    set_value (if payR d >? zero then toFixed (payR d * num "1.5") 2 else ""))]
              k <$> d !! k) as Hs.
  { intros k. rewrite lookup_sync, Hw2. cbv zeta. f_equal. f_equal. f_equal. f_equal.
    unfold payR, valNum, el. rewrite Hw2. cbv zeta.
    destruct (String.eqb_spec (value w2) "") as [->|_]; [reflexivity|].
    destruct (parseFloat (value w2)) as [s|s| |s m e] eqn:E; try reflexivity;
      destruct s; try reflexivity; try (exfalso; apply Hinf; reflexivity).
    change (S754_finite false m e >? zero) with true. cbn [isFinite].
    rewrite or_zero_positive; [reflexivity|].
    rewrite num_1_5. apply (mul_finite_sign false m e false). }
  split.
  - apply map_eq. intros k. rewrite Hs, lookup_setValue. unfold patch. cbn [entry].
    case_decide as Hk.
    + subst k. reflexivity.
    + destruct (String.eqb_spec k "pay_ot"); [congruence|]. destruct (d !! k); reflexivity.
  - rewrite Hs, lookup_recalc. reflexivity.
Qed.

Lemma sync_as_recalc_witness :
  page_pay_33_33 !! "pay_regular" = Some (field "33.33") /\
  parseFloat (value (field "33.33")) <> Infinity /\
  value <$> sync page_pay_33_33 !! "pay_ot" = Some "49.99" /\
  sync page_pay_33_33 !! "pay_ot" = recalc plain_USD page_pay_33_33 !! "pay_ot".
Proof.
  assert (page_pay_33_33 !! "pay_regular" = Some (field "33.33")) as H1
    by (vm_compute; reflexivity).
  assert (parseFloat (value (field "33.33")) <> Infinity) as H2
    by (vm_compute; discriminate).
  destruct (sync_as_recalc plain_USD page_pay_33_33 _ H1 H2) as [Hs Hr].
  repeat apply conj; [exact H1|exact H2| |exact Hr].
  rewrite Hs. vm_compute. reflexivity.
Defined.

(** Where the two differ: for a regular pay reading Infinity, [sync]
    writes Infinity and a pass the empty text. *)
Lemma sync_Infinity :
  let d := page_of [("pay_regular", "Infinity"); ("pay_ot", "")] in
  value <$> sync d !! "pay_ot" = Some "Infinity" /\
  value <$> recalc plain_USD d !! "pay_ot" = Some "".
Proof. split; vm_compute; reflexivity. Qed.

(** ** Clearing the sick-hours check box *)

Lemma patch_tail fmt d k :
  k <> "sick_hours" -> patch (writes fmt d) k = patch (tl (writes fmt d)) k.
Proof.
  intros Hk. unfold writes, patch. cbn [entry tl].
  destruct (String.eqb_spec k "sick_hours"); [congruence|reflexivity].
Qed.

Lemma patch_sick_hours fmt d :
  patch (writes fmt d) "sick_hours" =
  if autoSick d
  then set_value (if autoSickHours d >? zero then toFixed (autoSickHours d) 2 else "")
  else id.
Proof. reflexivity. Qed.

(** X8. Clearing the sick-hours check box after a pass changes nothing
    but the box: the pass its change listener runs takes the hours filled
    in as the hours entered, and writes what was there. *)
Theorem untick_after_recalc (toLocaleString : number -> string) (d : document) :
  auto_sick_change toLocaleString false (recalc toLocaleString d) =
  alter (set_checked false) "auto_sick_calc" (recalc toLocaleString d).
Proof.
  unfold auto_sick_change.
  set (a := alter (set_checked false) "auto_sick_calc" (recalc toLocaleString d)).
  assert (forall k, a !! k =
            (if decide (k = "auto_sick_calc") then set_checked false else id)
              <$> (patch (writes toLocaleString d) k <$> d !! k)) as Ha.
  { intros k. unfold a. case_decide as Hk.
    - subst k. rewrite lookup_alter_eq, lookup_recalc. reflexivity.
    - rewrite lookup_alter_ne, lookup_recalc by congruence.
      destruct (d !! k); reflexivity. }
  assert (forall k, k <> "sick_hours" -> k <> "pay_ot" ->
            value <$> a !! k = value <$> d !! k) as Hv.
  { intros k H1 H2. rewrite Ha. destruct (d !! k) as [e|]; simpl; [|reflexivity].
    case_decide; simpl; rewrite patch_value by assumption; reflexivity. }
  assert (forall k, k ∈ read_ids -> value <$> a !! k = value <$> d !! k) as Hr.
  { intros k Hk. apply Hv; intros ->; revert Hk; listed. }
  assert (autoSickHours a = autoSickHours d) as Hh by (apply reads_autoSickHours, Hr).
  assert (autoSick a = true -> autoSick d = true) as Hauto.
  { unfold autoSick, sickBox, el. rewrite Ha, decide_True by reflexivity.
    destruct (d !! "auto_sick_calc"); simpl; [discriminate|reflexivity]. }
  assert (a !! "sick_hours" = patch (writes toLocaleString d) "sick_hours" <$> d !! "sick_hours")
    as Hs.
  { rewrite Ha, decide_False by discriminate. destruct (d !! "sick_hours"); reflexivity. }
  assert ((if autoSick a
           then set_value (if autoSickHours a >? zero then toFixed (autoSickHours a) 2 else "")
           else id) <$> a !! "sick_hours" = a !! "sick_hours") as Hfill.
  { rewrite Hs, patch_sick_hours, Hh. destruct (autoSick a).
    - rewrite Hauto by reflexivity. destruct (d !! "sick_hours"); reflexivity.
    - destruct (d !! "sick_hours"); reflexivity. }
  assert (sickHours a = sickHours d) as Hsick.
  { apply sickHours_ext; [exact Hh|].
    rewrite !fill_sick_hours_alter, !lookup_alter_eq, Hfill, Hs, patch_sick_hours.
    reflexivity. }
  assert (tl (writes toLocaleString a) = tl (writes toLocaleString d)) as Ht.
  { apply reads_writes_tail; [exact Hr|exact Hsick|].
    right. apply Hv; discriminate. }
  apply map_eq. intros k. rewrite lookup_recalc.
  destruct (decide (k = "sick_hours")) as [->|Hk].
  - rewrite patch_sick_hours. exact Hfill.
  - rewrite patch_tail, Ht, <- patch_tail by exact Hk.
    rewrite Ha. destruct (d !! k) as [e|]; simpl; [|reflexivity].
    case_decide as Hb.
    + subst k. rewrite !patch_unwritten by listed. reflexivity.
    + simpl. rewrite patch_idem. reflexivity.
Qed.

(** ** The fee *)

Lemma entry_elim {A} (P : option A -> Prop) k (l : list (string * A)) :
  P None -> Forall (fun kv => P (Some (snd kv))) l -> P (entry k l).
Proof.
  intros Hn. induction 1 as [|[i x] l Hx _ IH]; simpl; auto.
  destruct (String.eqb k i); auto.
Qed.

(** What holds of 0 and of every fee of the table holds of the fee of any
    client whose name is not one that every object inherits. *)
Lemma fee_of_elim (P : number -> Prop) c :
  existsb (String.eqb c) inherited_keys = false ->
  P zero -> Forall (fun kv : string * number => P (or_zero (snd kv))) CLIENT_FEES ->
  P (fee_of c).
Proof.
  intros Hc H0 Hall. unfold fee_of.
  apply (entry_elim (fun o => P match o with
                               | Some f => or_zero f
                               | None => if existsb (String.eqb c) inherited_keys
                                         then NaN else zero
                               end)).
  - rewrite Hc. exact H0.
  - exact Hall.
Qed.

Ltac each_fee :=
  unfold CLIENT_FEES; repeat (apply Forall_cons; split); [..|by apply Forall_nil];
  cbn [snd].

(** X9. For a client whose name is not one that every object inherits,
    the fee is at least 0 and below 1; it is 0 for a client the table does
    not list, and that of SimpliFI, 0.06, when the page has no client
    selector or nothing is selected in it. *)
Theorem fee_range (d : document) :
  existsb (String.eqb (client d)) inherited_keys = false ->
  (zero <=? fee d) = true /\ (fee d <? num "1") = true /\
  (entry (client d) CLIENT_FEES = None -> fee d = zero) /\
  ((d !! "client" = None \/ value <$> d !! "client" = Some "") -> fee d = num "0.06").
Proof.
  intros Hc. unfold fee. repeat apply conj.
  - apply (fee_of_elim (fun f => (zero <=? f) = true)); [exact Hc|reflexivity|].
    each_fee; vm_compute; reflexivity.
  - apply (fee_of_elim (fun f => (f <? num "1") = true)); [exact Hc|reflexivity|].
    each_fee; vm_compute; reflexivity.
  - intros H. unfold fee_of. rewrite H, Hc. reflexivity.
  - unfold client, el. intros [H|H].
    + rewrite H. reflexivity.
    + destruct (d !! "client") as [n|]; [|reflexivity].
      injection H as ->. reflexivity.
Qed.

Lemma fee_range_witness :
  existsb (String.eqb (client page_example)) inherited_keys = false /\
  (zero <=? fee page_example) = true /\ (fee page_example <? num "1") = true.
Proof.
  assert (existsb (String.eqb (client page_example)) inherited_keys = false) as H
    by (vm_compute; reflexivity).
  destruct (fee_range page_example H) as (H1 & H2 & _).
  repeat apply conj; assumption.
Defined.

(** ** The form with nothing entered *)

Lemma zero_times_share c :
  existsb (String.eqb c) inherited_keys = false ->
  zero * (num "1" - fee_of c) = zero.
Proof.
  intros Hc.
  apply (fee_of_elim (fun f => zero * (num "1" - f) = zero)); [exact Hc|reflexivity|].
  each_fee; vm_compute; reflexivity.
Qed.

Create Rewrite HintDb blank.

Section Blank.

Variable d : document.
Hypothesis Hblank : blank d.
Hypothesis Hclient : existsb (String.eqb (client d)) inherited_keys = false.
Hypothesis Horient : Spec.orientation_of (orientType d) <> None.

Lemma blank_amount k : k ∈ amount_ids -> valNum d k zero = zero.
Proof. intros Hk. unfold blank in Hblank. rewrite Forall_forall in Hblank. auto. Qed.

Ltac amount := apply blank_amount; listed.

Lemma blank_billR : billR d = zero. Proof. amount. Qed.
Lemma blank_billOT : billOT d = zero. Proof. amount. Qed.
Lemma blank_payR : payR d = zero. Proof. amount. Qed.
Lemma blank_hrsR : hrsR d = zero. Proof. amount. Qed.
Lemma blank_hrsOT : hrsOT d = zero. Proof. amount. Qed.
Lemma blank_weeks : weeks d = zero. Proof. amount. Qed.
Lemma blank_houseDaily : houseDaily d = zero. Proof. amount. Qed.
Lemma blank_mealsDaily : mealsDaily d = zero. Proof. amount. Qed.
Lemma blank_orientHours : orientHours d = zero. Proof. amount. Qed.
Lemma blank_bonusStart : bonusStart d = zero. Proof. amount. Qed.
Lemma blank_bonusComplete : bonusComplete d = zero. Proof. amount. Qed.
Lemma blank_bcgReimb : bcgReimb d = zero. Proof. amount. Qed.

#[local] Hint Rewrite blank_billR blank_billOT blank_payR blank_hrsR blank_hrsOT blank_weeks
  blank_houseDaily blank_mealsDaily blank_orientHours blank_bonusStart
  blank_bonusComplete blank_bcgReimb : blank.

Ltac blank := autorewrite with blank; try reflexivity.

Lemma blank_hrAfterFee : hrAfterFee d = zero.
Proof. unfold hrAfterFee, fee. blank. apply zero_times_share, Hclient. Qed.
Lemma blank_otHrAfterFee : otHrAfterFee d = zero.
Proof. unfold otHrAfterFee, fee. blank. apply zero_times_share, Hclient. Qed.
Lemma blank_ND : ND d = zero. Proof. unfold ND. blank. Qed.
Lemma blank_NW : NW d = zero. Proof. unfold NW, ND. blank. Qed.
Lemma blank_NH : NH d = zero. Proof. unfold NH. blank. Qed.
Lemma blank_HA_hourly : HA_hourly d = zero. Proof. unfold HA_hourly. blank. Qed.
Lemma blank_MI_hourly : MI_hourly d = zero. Proof. unfold MI_hourly. blank. Qed.
Lemma blank_contractRegularHours : contractRegularHours d = zero.
Proof. unfold contractRegularHours. blank. Qed.
Lemma blank_autoSickHours : autoSickHours d = zero.
Proof. unfold autoSickHours, totalContractHours, contractRegularHours, contractOTHours. blank. Qed.
Lemma blank_PT_OVERTIME : PT_OVERTIME d = zero. Proof. unfold PT_OVERTIME. blank. Qed.

#[local] Hint Rewrite blank_hrAfterFee blank_otHrAfterFee blank_ND blank_NW blank_NH
  blank_HA_hourly blank_MI_hourly blank_contractRegularHours blank_autoSickHours
  blank_PT_OVERTIME : blank.

Lemma blank_startBonusHourly : startBonusHourly d = zero.
Proof. unfold startBonusHourly. blank. Qed.
Lemma blank_completeBonusHourly : completeBonusHourly d = zero.
Proof. unfold completeBonusHourly. blank. Qed.
Lemma blank_bcgHourly : bcgHourly d = zero.
Proof. unfold bcgHourly. blank. Qed.
Lemma blank_sickHourly : sickHourly d = zero.
Proof. unfold sickHourly. blank. Qed.

Lemma blank_totalOrientationPay : totalOrientationPay d = zero.
Proof.
  unfold totalOrientationPay, orientPayRatePerHr, effectiveOrientPay. blank.
  unfold Spec.orientation_of in Horient.
  destruct (String.eqb (orientType d) "Billable"); [reflexivity|].
  destruct (String.eqb (orientType d) "Non Billable"); [reflexivity|congruence].
Qed.

Lemma blank_orientationHourly : orientationHourly d = zero.
Proof. unfold orientationHourly. blank. rewrite andb_false_r. reflexivity. Qed.

Lemma blank_dailyRegularHours : dailyRegularHours d = zero.
Proof.
  unfold dailyRegularHours. blank.
  destruct (dailyRegularHours_divisor d) as (m & e & ->). reflexivity.
Qed.

#[local] Hint Rewrite blank_startBonusHourly blank_completeBonusHourly blank_bcgHourly
  blank_sickHourly blank_totalOrientationPay blank_orientationHourly
  blank_dailyRegularHours : blank.

Lemma blank_OT_rate_if_above_40 : OT_rate_if_above_40 d = zero.
Proof. unfold OT_rate_if_above_40. blank. Qed.
Lemma blank_weeklyOnW2Taxable : weeklyOnW2Taxable d = zero.
Proof. unfold weeklyOnW2Taxable. blank. Qed.
Lemma blank_weeklyStipendNT : weeklyStipendNT d = zero.
Proof. unfold weeklyStipendNT. blank. Qed.
#[local] Hint Rewrite blank_OT_rate_if_above_40 blank_weeklyOnW2Taxable
  blank_weeklyStipendNT : blank.
Lemma blank_totalWeeklyTaxableWithOT : totalWeeklyTaxableWithOT d = zero.
Proof. unfold totalWeeklyTaxableWithOT. blank. Qed.
Lemma blank_weeklyGross : weeklyGross d = zero.
Proof. unfold weeklyGross. blank. Qed.
Lemma blank_weeklyBillingClient : weeklyBillingClient d = zero.
Proof. unfold weeklyBillingClient. blank. Qed.
Lemma blank_hourlyMargin : hourlyMargin d = zero.
Proof.
  unfold hourlyMargin. blank. destruct (String.eqb (orientType d) "Non Billable"); reflexivity.
Qed.
Lemma blank_otMargin : otMargin d = zero.
Proof. unfold otMargin. blank. Qed.
#[local] Hint Rewrite blank_totalWeeklyTaxableWithOT blank_weeklyGross
  blank_weeklyBillingClient blank_hourlyMargin blank_otMargin : blank.
Lemma blank_weeklyNET : weeklyNET d = zero.
Proof. unfold weeklyNET. blank. Qed.
#[local] Hint Rewrite blank_weeklyNET : blank.

(** A pass writes on it what it writes on an empty page. *)
Lemma blank_writes_tail fmt : tl (writes fmt d) = tl (writes fmt ∅).
Proof.
  unfold writes at 1. cbn [tl].
  unfold contractNET, monthlyNET, contractBillingClient, monthlyBillingClient.
  autorewrite with blank.
  unfold gauge_message. fold (billR d). rewrite blank_billR.
  reflexivity.
Qed.

Lemma blank_patch fmt k : k <> "sick_hours" -> patch (writes fmt d) k = patch (writes fmt ∅) k.
Proof. intros Hk. rewrite !patch_tail, blank_writes_tail by exact Hk. reflexivity. Qed.

End Blank.

Lemma empty_page_amounts fmt :
  Forall (fun k => patch (writes fmt ∅) k = set_textContent (fmt zero)) currency_ids.
Proof.
  unfold currency_ids. repeat (apply Forall_cons; split); [..|by apply Forall_nil];
    vm_compute; reflexivity.
Qed.

Lemma blank_recalc fmt (d : document) :
  blank d ->
  existsb (String.eqb (client d)) inherited_keys = false ->
  Spec.orientation_of (orientType d) <> None ->
  (forall k, k ∈ currency_ids ->
     recalc fmt d !! k = set_textContent (fmt zero) <$> d !! k) /\
  recalc fmt d !! "ma_message" =
    set_textContent "Enter numbers to analyze margin." <$> d !! "ma_message" /\
  recalc fmt d !! "pay_ot" = set_value "" <$> d !! "pay_ot" /\
  (autoSick d = true ->
   recalc fmt d !! "sick_hours" = set_value "" <$> d !! "sick_hours").
Proof.
  intros Hb Hc Ho. rewrite !lookup_recalc. repeat apply conj.
  - intros k Hk. rewrite lookup_recalc.
    pose proof (empty_page_amounts fmt) as Hall.
    rewrite Forall_forall in Hall.
    rewrite (blank_patch d Hb Hc Ho), (Hall k Hk); [reflexivity|].
    intros ->. revert Hk. listed.
  - rewrite (blank_patch d Hb Hc Ho) by discriminate. reflexivity.
  - rewrite (blank_patch d Hb Hc Ho) by discriminate. reflexivity.
  - intros Ha. rewrite patch_sick_hours, Ha, (blank_autoSickHours d Hb). reflexivity.
Qed.

(** X10. On a form with no amount entered, for a client of the table or an
    unknown one and either orientation type, the hourly margin is 0, every
    amount shows as 0, the message asks for numbers, the overtime pay field
    is emptied, so is the sick hours field when it is filled in
    automatically, and the gauge arc is red. *)
Theorem blank_form (toLocaleString : number -> string) (d : document) :
  blank d ->
  existsb (String.eqb (client d)) inherited_keys = false ->
  Spec.orientation_of (orientType d) <> None ->
  hourlyMargin d = zero /\
  (forall k, k ∈ currency_ids ->
     recalc toLocaleString d !! k = set_textContent (toLocaleString zero) <$> d !! k) /\
  recalc toLocaleString d !! "ma_message" =
    set_textContent "Enter numbers to analyze margin." <$> d !! "ma_message" /\
  recalc toLocaleString d !! "pay_ot" = set_value "" <$> d !! "pay_ot" /\
  (autoSick d = true ->
   recalc toLocaleString d !! "sick_hours" = set_value "" <$> d !! "sick_hours") /\
  stroke <$> recalc toLocaleString d !! "gaugeArc" =
    (fun _ => "#d93025") <$> d !! "gaugeArc".
Proof.
  intros Hb Hc Ho.
  destruct (blank_recalc toLocaleString d Hb Hc Ho) as (Hk & Hm & Hp & Hs).
  repeat apply conj; try assumption.
  - apply blank_hourlyMargin; assumption.
  - rewrite lookup_recalc, (blank_patch d Hb Hc Ho) by discriminate.
    destruct (d !! "gaugeArc"); reflexivity.
Qed.

Lemma blank_form_witness :
  blank page_blank /\
  textContent <$> recalc plain_USD page_blank !! "gm_hourly" = Some "$0.00" /\
  textContent <$> recalc plain_USD page_blank !! "ma_message" =
    Some "Enter numbers to analyze margin." /\
  value <$> recalc plain_USD page_blank !! "pay_ot" = Some "" /\
  value <$> recalc plain_USD page_blank !! "sick_hours" = Some "".
Proof.
  assert (blank page_blank) as Hb.
  { unfold blank, amount_ids. repeat (apply Forall_cons; split); [..|by apply Forall_nil];
      vm_compute; reflexivity. }
  assert (existsb (String.eqb (client page_blank)) inherited_keys = false) as Hc
    by (vm_compute; reflexivity).
  assert (Spec.orientation_of (orientType page_blank) <> None) as Ho
    by (vm_compute; discriminate).
  destruct (blank_form plain_USD page_blank Hb Hc Ho) as (_ & Hk & Hm & Hp & Hs & _).
  split; [exact Hb|]. repeat apply conj.
  - rewrite Hk by listed. vm_compute. reflexivity.
  - rewrite Hm. vm_compute. reflexivity.
  - rewrite Hp. vm_compute. reflexivity.
  - rewrite Hs by (vm_compute; reflexivity). vm_compute. reflexivity.
Defined.

(** ** The reset button *)

Lemma lookup_cleared (l : list string) (d : document) k :
  foldl (fun m i => setValue i "" m) d l !! k =
  (if bool_decide (k ∈ l) then set_value "" else id) <$> d !! k.
Proof.
  revert d. induction l as [|i l IH]; intros d; simpl.
  - destruct (d !! k); reflexivity.
  - rewrite IH, lookup_setValue.
    destruct (decide (k = i)) as [->|Hne].
    + rewrite (bool_decide_eq_true_2 (i ∈ i :: l)) by left.
      destruct (d !! i); simpl; [|reflexivity]. case_bool_decide; reflexivity.
    + rewrite (bool_decide_ext (k ∈ i :: l) (k ∈ l)); [reflexivity|].
      rewrite elem_of_cons. tauto.
Qed.

Section Reset.

Variable number_inputs : list string.
Variable has_option : string -> string -> bool.

Lemma lookup_reset_form (d : document) k :
  reset_form number_inputs has_option d !! k =
  reset_element number_inputs has_option k <$> d !! k.
Proof.
  unfold reset_form, select_value, reset_element. cbv zeta.
  set (d5 := setValue "schedule_days" _ _).
  assert (d5 !! k =
    (fun e =>
      let e := if bool_decide (k ∈ number_inputs) then set_value "" e else e in
      let e := if decide (k = "client")
               then set_value (if has_option "client" "SimpliFI" then "SimpliFI" else "") e
               else e in
      let e := if decide (k = "orient_type")
               then set_value (if has_option "orient_type" "Non Billable"
                               then "Non Billable" else "") e
               else e in
      let e := if decide (k = "orient_pay") then set_value "16.5" e else e in
      if decide (k = "schedule_days") then set_value "5" e else e) <$> d !! k) as H5.
  { unfold d5. rewrite !lookup_setValue, lookup_cleared. cbv zeta.
    destruct (d !! k) as [e|]; simpl;
      repeat case_decide; try reflexivity; case_bool_decide; reflexivity. }
  unfold el. destruct (decide (k = "auto_sick_calc")) as [->|Hne].
  - destruct (d5 !! "auto_sick_calc") as [b|] eqn:E.
    + rewrite lookup_insert_eq. cbv zeta in H5.
      destruct (d !! "auto_sick_calc"); simpl in *; [|discriminate].
      injection H5 as ->. reflexivity.
    + rewrite E. destruct (d !! "auto_sick_calc"); [discriminate|reflexivity].
  - destruct (d5 !! "auto_sick_calc") as [b|].
    + rewrite lookup_insert_ne by congruence. rewrite H5. reflexivity.
    + rewrite H5. reflexivity.
Qed.

End Reset.

Lemma value_recalc fmt (d : document) k :
  k <> "sick_hours" -> k <> "pay_ot" -> value <$> recalc fmt d !! k = value <$> d !! k.
Proof.
  intros H1 H2. rewrite lookup_recalc. destruct (d !! k) as [e|]; [|reflexivity].
  cbn [fmap option_fmap option_map]. rewrite patch_value by assumption. reflexivity.
Qed.

Lemma checked_recalc fmt (d : document) k :
  checked <$> recalc fmt d !! k = checked <$> d !! k.
Proof.
  rewrite lookup_recalc. destruct (d !! k) as [e|]; [|reflexivity].
  cbn [fmap option_fmap option_map]. rewrite patch_checked. reflexivity.
Qed.

Lemma client_recalc fmt (d : document) : client (recalc fmt d) = client d.
Proof.
  unfold client, el. rewrite lookup_recalc.
  destruct (d !! "client") as [e|]; simpl; [|reflexivity].
  rewrite patch_value by discriminate. reflexivity.
Qed.

Lemma orientType_recalc fmt (d : document) : orientType (recalc fmt d) = orientType d.
Proof.
  unfold orientType, el. rewrite lookup_recalc.
  destruct (d !! "orient_type") as [e|]; simpl; [|reflexivity].
  rewrite patch_value by discriminate. reflexivity.
Qed.

(** X11. Where the amount fields are number inputs, a click on the reset
    button leaves the form with nothing entered: the amount fields, the
    overtime pay and the sick hours are empty, the orientation pay reads
    16.5 and the schedule 5 days, the sick-hours box is ticked, the client
    is SimpliFI and the orientation Non Billable, whether or not the
    selectors offer these options; every amount shows as 0 and the message
    asks for numbers. *)
Theorem reset_gives_blank_form (toLocaleString : number -> string)
    (number_inputs : list string) (has_option : string -> string -> bool) (d : document) :
  (forall k, k ∈ amount_ids -> k ∈ number_inputs) ->
  let d' := reset_click toLocaleString number_inputs has_option d in
  (forall k, k ∈ currency_ids ->
     textContent <$> d' !! k = (fun _ => toLocaleString zero) <$> d !! k) /\
  textContent <$> d' !! "ma_message" =
    (fun _ => "Enter numbers to analyze margin.") <$> d !! "ma_message" /\
  (forall k, k ∈ "pay_ot" :: "sick_hours" :: amount_ids ->
     value <$> d' !! k = (fun _ => "") <$> d !! k) /\
  value <$> d' !! "orient_pay" = (fun _ => "16.5") <$> d !! "orient_pay" /\
  value <$> d' !! "schedule_days" = (fun _ => "5") <$> d !! "schedule_days" /\
  checked <$> d' !! "auto_sick_calc" = (fun _ => true) <$> d !! "auto_sick_calc" /\
  client d' = "SimpliFI" /\
  orientType d' = "Non Billable".
Proof.
  intros Hsub. cbv zeta. unfold reset_click.
  set (r := reset_form number_inputs has_option d).
  assert (forall k, r !! k = reset_element number_inputs has_option k <$> d !! k) as Hr
    by apply lookup_reset_form.
  assert (forall k, k ∈ amount_ids -> value <$> r !! k = (fun _ => "") <$> d !! k) as Hamount.
  { intros k Hk. rewrite Hr. destruct (d !! k) as [e|]; [|reflexivity]. simpl.
    unfold reset_element. rewrite bool_decide_eq_true_2 by auto.
    unfold amount_ids in Hk. each_listed Hk; reflexivity. }
  assert (blank r) as Hb.
  { unfold blank. apply Forall_forall. intros k Hk. unfold valNum, el.
    specialize (Hamount k Hk).
    destruct (r !! k) as [e|]; [|reflexivity].
    destruct (d !! k); [|discriminate]. injection Hamount as ->. reflexivity. }
  assert (client r = "SimpliFI") as Hc.
  { unfold client, el. rewrite Hr. destruct (d !! "client") as [e|]; [|reflexivity].
    simpl. unfold reset_element. cbn.
    destruct (has_option "client" "SimpliFI"); reflexivity. }
  assert (orientType r = "Non Billable") as Ho.
  { unfold orientType, el. rewrite Hr. destruct (d !! "orient_type") as [e|]; [|reflexivity].
    simpl. unfold reset_element. cbn.
    destruct (has_option "orient_type" "Non Billable"); reflexivity. }
  assert (autoSick r = true) as Ha.
  { unfold autoSick, sickBox, el. rewrite Hr.
    destruct (d !! "auto_sick_calc"); reflexivity. }
  destruct (blank_recalc toLocaleString r Hb) as (Hk & Hm & Hp & Hs).
  { rewrite Hc. reflexivity. }
  { rewrite Ho. discriminate. }
  specialize (Hs Ha).
  repeat apply conj.
  - intros k Hin. rewrite (Hk k Hin), Hr. destruct (d !! k); reflexivity.
  - rewrite Hm, Hr. destruct (d !! "ma_message"); reflexivity.
  - intros k Hin. apply elem_of_cons in Hin as [->|Hin];
      [|apply elem_of_cons in Hin as [->|Hin]].
    + rewrite Hp, Hr. destruct (d !! "pay_ot"); reflexivity.
    + rewrite Hs, Hr. destruct (d !! "sick_hours"); reflexivity.
    + rewrite <- (Hamount k Hin). apply value_recalc; intros ->; revert Hin; listed.
  - rewrite value_recalc, Hr by discriminate.
    destruct (d !! "orient_pay") as [e|]; reflexivity.
  - rewrite value_recalc, Hr by discriminate.
    destruct (d !! "schedule_days") as [e|]; reflexivity.
  - rewrite checked_recalc, Hr. destruct (d !! "auto_sick_calc") as [e|]; reflexivity.
  - rewrite client_recalc. exact Hc.
  - rewrite orientType_recalc. exact Ho.
Qed.

Lemma reset_gives_blank_form_witness :
  let d' := reset_click plain_USD example_number_inputs (fun _ _ => true) page_example in
  (forall k, k ∈ amount_ids -> k ∈ example_number_inputs) /\
  value <$> page_example !! "bill_regular" = Some "50" /\
  value <$> d' !! "bill_regular" = Some "" /\
  textContent <$> d' !! "gm_hourly" = Some "$0.00" /\
  textContent <$> d' !! "ma_message" = Some "Enter numbers to analyze margin.".
Proof.
  cbv zeta.
  assert (forall k, k ∈ amount_ids -> k ∈ example_number_inputs) as H.
  { intros k Hk. unfold example_number_inputs. apply elem_of_app. left. exact Hk. }
  destruct (reset_gives_blank_form plain_USD example_number_inputs (fun _ _ => true)
              page_example H) as (Hk & Hm & Hv & _).
  repeat apply conj.
  - exact H.
  - vm_compute. reflexivity.
  - rewrite Hv by listed. vm_compute. reflexivity.
  - rewrite Hk by listed. vm_compute. reflexivity.
  - rewrite Hm. vm_compute. reflexivity.
Defined.

(** ** The orientation selector *)

(** With Billable or Non Billable selected, what the orientation pay
    field holds does not reach what a pass writes. *)
Lemma writes_orient_pay fmt (d : document) v :
  Spec.orientation_of (orientType d) <> None ->
  writes fmt (setValue "orient_pay" v d) = writes fmt d.
Proof.
  intros Ho.
  assert (forall k, k <> "orient_pay" -> setValue "orient_pay" v d !! k = d !! k) as Hk.
  { intros k Hne. rewrite lookup_setValue. case_decide; congruence. }
  assert (forall k, k ∈ read_ids ->
            value <$> setValue "orient_pay" v d !! k = value <$> d !! k) as Hv.
  { intros k Hin. rewrite Hk; [reflexivity|]. intros ->. revert Hin. listed. }
  assert (autoSick (setValue "orient_pay" v d) = autoSick d) as Ha.
  { apply autoSick_ext. rewrite Hk by discriminate. reflexivity. }
  apply reads_writes; auto.
  apply sickHours_ext.
  - apply reads_autoSickHours, Hv.
  - rewrite !fill_sick_hours_alter, !lookup_alter_eq, Ha, Hk by discriminate.
    rewrite (reads_autoSickHours d _ Hv). reflexivity.
Qed.

Lemma orientType_setValue id v (d : document) :
  id <> "orient_type" -> orientType (setValue id v d) = orientType d.
Proof.
  intros Hne. unfold orientType, el. rewrite lookup_setValue.
  case_decide; [congruence|reflexivity].
Qed.

(** X12. The change listener of the orientation selector leaves the page
    as a pass does, but for the orientation pay field: with Non Billable
    selected the field is set to 16.5, which is then the rate the pass has
    used; with anything else selected the field is left alone. *)
Theorem orient_type_change_is_a_pass (toLocaleString : number -> string)
    (d : document) (orientSel : element) :
  d !! "orient_type" = Some orientSel ->
  (value orientSel = "Non Billable" ->
   orient_type_change toLocaleString d =
     setValue "orient_pay" "16.5" (recalc toLocaleString d) /\
   (is_Some (d !! "orient_pay") ->
    valNum (orient_type_change toLocaleString d) "orient_pay" zero =
      orientPayRatePerHr (orient_type_change toLocaleString d))) /\
  (value orientSel <> "Non Billable" ->
   orient_type_change toLocaleString d = recalc toLocaleString d).
Proof.
  intros Hsel. unfold orient_type_change, el. rewrite Hsel. split.
  - intros Hnb. rewrite Hnb. cbn [String.eqb Ascii.eqb Bool.eqb andb].
    assert (orientType d = "Non Billable") as Ho.
    { unfold orientType, el. rewrite Hsel, Hnb. reflexivity. }
    assert (recalc toLocaleString (setValue "orient_pay" "16.5" d) =
            setValue "orient_pay" "16.5" (recalc toLocaleString d)) as Hr.
    { apply map_eq. intros k.
      rewrite lookup_recalc, writes_orient_pay by (rewrite Ho; discriminate).
      rewrite !lookup_setValue, lookup_recalc. case_decide as Hk; [subst k|reflexivity].
      destruct (d !! "orient_pay"); reflexivity. }
    split; [exact Hr|]. intros [e He]. rewrite Hr.
    unfold orientPayRatePerHr, effectiveOrientPay.
    rewrite orientType_setValue, orientType_recalc, Ho by discriminate.
    unfold valNum, el. rewrite lookup_setValue, lookup_recalc, He.
    case_decide; [reflexivity|congruence].
  - intros Hne. destruct (String.eqb_spec (value orientSel) "Non Billable"); [congruence|].
    reflexivity.
Qed.

Lemma orient_type_change_is_a_pass_witness :
  let d := setValue "orient_pay" "99" page_example in
  d !! "orient_type" = Some (field "Non Billable") /\
  value (field "Non Billable") = "Non Billable" /\
  value <$> d !! "orient_pay" = Some "99" /\
  value <$> orient_type_change plain_USD d !! "orient_pay" = Some "16.5" /\
  textContent <$> orient_type_change plain_USD d !! "gm_hourly" = Some "$1.72".
Proof.
  cbv zeta.
  assert (setValue "orient_pay" "99" page_example !! "orient_type" =
          Some (field "Non Billable")) as H by (vm_compute; reflexivity).
  assert (value (field "Non Billable") = "Non Billable") as Hv by reflexivity.
  destruct (orient_type_change_is_a_pass plain_USD _ _ H) as [Hc _].
  destruct (Hc Hv) as [Hr _].
  repeat apply conj.
  - exact H.
  - exact Hv.
  - vm_compute. reflexivity.
  - rewrite Hr. vm_compute. reflexivity.
  - rewrite Hr. vm_compute. reflexivity.
Defined.

(** ** A week without regular hours *)

Lemma eq_zero_is_zero x : (x =? zero) = true -> exists s, x = S754_zero s.
Proof. destruct x as [s|[]| |[] m e]; cbn; try discriminate. eauto. Qed.

(** X13. In a week without regular hours the hourly stipend figures, the
    daily overtime hours and the special overtime rate are 0 and the
    weekly taxable pay is 0, while the weekly stipend is the full weekly
    amount. *)
Theorem no_regular_hours_week (d : document) :
  (hrsR d =? zero) = true ->
  NH d = zero /\ HA_hourly d = zero /\ MI_hourly d = zero /\
  OT_if_above_8h d = zero /\ OT_rate_if_above_40 d = zero /\
  (weeklyOnW2Taxable d =? zero) = true /\
  weeklyStipendNT d = NW d.
Proof.
  intros H. apply eq_zero_is_zero in H as [s Hs].
  assert ((hrsR d >? num "40") = false) as H40 by (rewrite Hs; destruct s; reflexivity).
  assert ((hrsR d >? zero) = false) as H0 by (rewrite Hs; destruct s; reflexivity).
  unfold NH, HA_hourly, MI_hourly, OT_rate_if_above_40, weeklyOnW2Taxable, weeklyStipendNT.
  rewrite H40, H0. repeat apply conj; try reflexivity.
  - unfold OT_if_above_8h, dailyRegularHours. rewrite Hs.
    destruct (dailyRegularHours_divisor d) as (m & e & ->). destruct s; reflexivity.
  - rewrite Hs. pose proof (isFinite_valNum d "pay_regular" zero eq_refl) as Hp.
    fold (payR d) in Hp. destruct (payR d) as [s'|s'| |s' m e]; try discriminate;
      destruct s, s'; reflexivity.
Qed.

Lemma no_regular_hours_week_witness :
  (hrsR page_no_hours =? zero) = true /\
  houseDaily (setValue "house_daily" "20" page_no_hours) = zero /\
  NH page_no_hours = zero /\
  (weeklyOnW2Taxable page_no_hours =? zero) = true.
Proof.
  assert ((hrsR page_no_hours =? zero) = true) as H by (vm_compute; reflexivity).
  destruct (no_regular_hours_week page_no_hours H) as (H1 & _ & _ & _ & _ & H2 & _).
  repeat apply conj; [exact H|vm_compute; reflexivity|exact H1|exact H2].
Defined.

(** ** The gauge, for every margin *)

Lemma num_40 : num "20" * num "2" = S754_finite false 5629499534213120 (-47).
Proof. reflexivity. Qed.

Lemma div_keeps_numbers x sy my ey :
  isNaN x = false -> isNaN (x / S754_finite sy my ey) = false.
Proof.
  destruct x as [s|s| |s m e]; try discriminate; intros _; try reflexivity.
  eapply has_sign_not_nan, div_finite_sign.
Qed.

(** A number clamped to [0, 1] is 0, 1 or itself. *)
Lemma clamp_cases q :
  isNaN q = false ->
  let r := Math_max zero (Math_min (num "1") q) in
  r = zero \/ r = num "1" \/
  (r = q /\ compare zero q = Some Lt /\ compare (num "1") q = Some Gt).
Proof.
  intros Hq. cbv zeta. unfold Math_min.
  destruct (compare (num "1") q) as [[]|] eqn:E1.
  - destruct q as [[]|[]| |[] m e]; try discriminate E1; try (right; left; reflexivity).
  - right. left. reflexivity.
  - unfold Math_max. destruct (compare zero q) as [[]|] eqn:E0.
    + left. reflexivity.
    + right. right. repeat split; reflexivity.
    + left. reflexivity.
    + destruct q; discriminate.
  - destruct q; discriminate.
Qed.

(** X14. For a margin that is a number, infinite or not, the progress
    that the gauge shows towards twice the target of 20 is a finite number
    from 0 to 1; and for a target that is not above 0 nothing is divided
    and the progress is 0, whatever the margin. *)
Theorem gauge_progress_bounds (margin target : number) :
  ((target >? zero) = false -> gauge_progress margin target = zero) /\
  (isNaN margin = false ->
   let p := gauge_progress margin (num "20") in
   (zero <=? p) = true /\ (p <=? num "1") = true /\ isFinite p = true).
Proof.
  split.
  { intros H. unfold gauge_progress. rewrite H. reflexivity. }
  intros Hm. cbv zeta. unfold gauge_progress.
  change (num "20" >? zero) with true. cbv iota. rewrite num_40.
  pose proof (div_keeps_numbers margin false 5629499534213120 (-47) Hm) as Hq.
  set (q := margin / _) in *. clearbody q.
  destruct (clamp_cases q Hq) as [->|[->|(-> & H0 & H1)]].
  - repeat split; reflexivity.
  - repeat split; reflexivity.
  - unfold le, ge. rewrite (compare_antisym zero q), H0, H1. repeat split; try reflexivity.
    destruct q as [s|[]| |s m e]; try reflexivity; discriminate.
Qed.

Lemma gauge_progress_bounds_witness :
  isNaN (num "1e300") = false /\
  gauge_progress (num "1e300") (num "20") = num "1" /\
  isNaN (num "-3") = false /\
  gauge_progress (num "-3") (num "20") = zero /\
  (zero <=? gauge_progress (num "17.5") (num "20")) = true /\
  (zero >? zero) = false /\
  gauge_progress (num "17.5") zero = zero.
Proof.
  assert (isNaN (num "17.5") = false) as H by reflexivity.
  assert ((zero >? zero) = false) as H0 by reflexivity.
  destruct (gauge_progress_bounds (num "17.5") zero) as [Hz Hb].
  destruct (Hb H) as (H1 & _).
  repeat apply conj; [vm_compute; reflexivity..|exact H1|exact H0|exact (Hz H0)].
Defined.

(** X15. For a margin that is a number the colour of the gauge and the
    message agree: the arc is green exactly when the message reads
    healthy; it is red under the message for a negative margin and under
    the request for numbers; and an amber arc comes with the message for a
    margin below target. *)
Theorem gauge_colour_and_message (toLocaleString : number -> string)
    (margin : number) (d : document) :
  isNaN margin = false ->
  let message := gauge_message toLocaleString margin (num "20") d in
  let colour := gauge_stroke margin (num "20") in
  (colour = "#1e8e3e" <-> message = "Margin looks healthy.") /\
  (message = "Margin is negative. Review pay rates and bill rates." -> colour = "#d93025") /\
  (message = "Enter numbers to analyze margin." -> colour = "#d93025") /\
  (colour = "#f9ab00" ->
   message = "Margin is below target of " ++ fmtUSD toLocaleString (num "20") ++ ".").
Proof.
  intros Hm. cbv zeta. unfold gauge_message, gauge_stroke.
  set (b := valNum d "bill_regular" zero =? zero). clearbody b.
  destruct (margin >=? num "20") eqn:Hge.
  - rewrite (ge_not_lt _ _ Hge). rewrite num_20 in Hge. apply ge_positive in Hge.
    unfold eq, lt. rewrite Hge. cbn [andb].
    repeat apply conj; try discriminate; split; reflexivity.
  - assert ((margin <? num "20") = true) as Hlt.
    { destruct (margin <? num "20") eqn:E; [reflexivity|].
      rewrite (not_lt_ge margin (num "20") Hm eq_refl E) in Hge. discriminate. }
    rewrite Hlt. unfold gt, eq, lt. rewrite (compare_antisym margin zero).
    destruct (compare margin zero) as [[]|] eqn:E0; cbn [option_map CompOpp andb];
      destruct b; repeat apply conj; try discriminate; try reflexivity;
      intros H; cbn in H; discriminate H.
Qed.

Lemma gauge_colour_and_message_witness :
  isNaN (num "25") = false /\
  gauge_stroke (num "25") (num "20") = "#1e8e3e" /\
  gauge_message plain_USD (num "25") (num "20") page_example = "Margin looks healthy.".
Proof.
  assert (isNaN (num "25") = false) as H by reflexivity.
  assert (gauge_stroke (num "25") (num "20") = "#1e8e3e") as Hc by (vm_compute; reflexivity).
  destruct (gauge_colour_and_message plain_USD (num "25") page_example H) as ([Hm _] & _).
  repeat apply conj; [exact H|exact Hc|exact (Hm Hc)].
Defined.

(** ** The numbers read *)

(** X16. Whatever the fields hold, every number a pass reads is finite;
    the schedule days it divides by are a positive finite number; and the
    regular hours per day are a number. *)
Theorem inputs_are_finite (d : document) :
  Forall (fun x => isFinite x = true) (inputs d) /\
  (exists m e, Math_max (num "1") (scheduleDays d) = S754_finite false m e) /\
  isNaN (dailyRegularHours d) = false.
Proof.
  repeat apply conj.
  - unfold inputs. repeat (apply Forall_cons; split); [..|by apply Forall_nil];
      apply isFinite_valNum; reflexivity.
  - apply dailyRegularHours_divisor.
  - apply dailyRegularHours_not_nan.
Qed.

(** ** Stipends are not negative *)

Lemma add_sign_pos x y : has_sign false x -> has_sign false y -> has_sign false (x + y).
Proof.
  destruct x as [sx|sx| |sx mx ex], y as [sy|sy| |sy my ey]; cbn [has_sign];
    try easy; intros -> ->; try reflexivity.
  unfold add, SFadd. cbn [cond_Zopp].
  match goal with
  | |- has_sign false (binary_normalize _ _ ?z ?e _) =>
      pose proof (binary_normalize_sign z e) as H;
      assert ((z ?= 0) = Gt)%Z as Hz by (apply Z.compare_gt_iff; lia)
  end.
  rewrite Hz in H. exact H.
Qed.

Lemma mul_sign_pos x m e : has_sign false x -> has_sign false (x * S754_finite false m e).
Proof.
  destruct x as [sx|sx| |sx mx ex]; cbn [has_sign]; try easy; intros ->; try reflexivity.
  apply (mul_finite_sign false mx ex false m e).
Qed.

Lemma pos_mul_sign x m e : has_sign false x -> has_sign false (S754_finite false m e * x).
Proof.
  destruct x as [sx|sx| |sx mx ex]; cbn [has_sign]; try easy; intros ->; try reflexivity.
  apply (mul_finite_sign false m e false mx ex).
Qed.

Lemma div_sign_pos x m e : has_sign false x -> has_sign false (x / S754_finite false m e).
Proof.
  destruct x as [sx|sx| |sx mx ex]; cbn [has_sign]; try easy; intros ->; try reflexivity.
  apply (div_finite_sign false mx ex false m e).
Qed.

(** A finite number above a positive one is positive. *)
Lemma gt_positive_finite x y :
  (x >? y) = true -> has_sign false y -> isFinite x = true ->
  exists m e, x = S754_finite false m e.
Proof.
  intros Hgt Hy Hx.
  assert (compare x zero = Some Gt) as H0.
  { destruct y as [sy|sy| |sy my ey]; cbn [has_sign] in Hy; try easy; subst sy.
    - unfold gt, lt in Hgt. rewrite (compare_antisym x) in Hgt.
      destruct x as [[]|[]| |[] m e]; cbn in *; congruence.
    - destruct x as [[]|[]| |[] m e]; cbn in *; congruence.
    - apply (ge_positive x my ey). unfold ge. unfold gt, lt in Hgt.
      rewrite (compare_antisym x) in Hgt.
      destruct (compare x (S754_finite false my ey)) as [[]|]; cbn in *; congruence. }
  destruct x as [[]|[]| |[] m e]; cbn in *; try discriminate; eauto.
Qed.

(** X17. Where the daily housing and meals amounts read are not negative,
    no stipend figure is negative or NaN: not the daily, weekly or hourly
    amount, not the housing and meals shares of the hour, not the weekly
    stipend paid. *)
Theorem stipends_not_negative (d : document) :
  has_sign false (houseDaily d) -> has_sign false (mealsDaily d) ->
  has_sign false (ND d) /\ has_sign false (NW d) /\ has_sign false (NH d) /\
  has_sign false (HA_hourly d) /\ has_sign false (MI_hourly d) /\
  has_sign false (weeklyStipendNT d).
Proof.
  intros Hh Hm.
  assert (has_sign false (ND d)) as Hnd by (apply add_sign_pos; assumption).
  assert (has_sign false (NW d)) as Hnw by (apply (mul_sign_pos (ND d)), Hnd).
  assert (forall x, has_sign false x ->
            has_sign false (if hrsR d >? num "40" then x / num "40"
                            else if hrsR d >? zero then x / hrsR d else zero)) as Hper.
  { intros x Hx. destruct (hrsR d >? num "40"); [apply (div_sign_pos x), Hx|].
    destruct (hrsR d >? zero) eqn:E; [|reflexivity].
    destruct (gt_positive_finite _ _ E eq_refl) as (m & e & ->).
    - apply isFinite_valNum. reflexivity.
    - apply div_sign_pos, Hx. }
  repeat apply conj; try assumption.
  - apply Hper, Hnw.
  - apply Hper. apply (mul_sign_pos (houseDaily d)), Hh.
  - apply Hper. apply (mul_sign_pos (mealsDaily d)), Hm.
  - unfold weeklyStipendNT. destruct (hrsR d >? num "40") eqn:E; [|exact Hnw].
    destruct (gt_positive_finite _ _ E eq_refl) as (m & e & ->).
    + apply isFinite_valNum. reflexivity.
    + apply (div_sign_pos (_ * _)), pos_mul_sign, Hnw.
Qed.

Lemma stipends_not_negative_witness :
  has_sign false (houseDaily page_example) /\ has_sign false (mealsDaily page_example) /\
  toString (NH page_example) = "6.805555555555555" /\
  has_sign false (NH page_example) /\ has_sign false (weeklyStipendNT page_example).
Proof.
  assert (has_sign false (houseDaily page_example)) as Hh by (vm_compute; reflexivity).
  assert (has_sign false (mealsDaily page_example)) as Hm by (vm_compute; reflexivity).
  destruct (stipends_not_negative page_example Hh Hm) as (_ & _ & H1 & _ & _ & H2).
  repeat apply conj; try assumption. vm_compute. reflexivity.
Defined.

(** ** An orientation type that is neither of the two *)

(** X18. Where the orientation selector holds a value that is neither
    Billable nor Non Billable, the orientation is paid at the rate of the
    orientation pay field, and it costs the margin nothing. *)
Theorem unlisted_orientation_type (d : document) :
  orientType d <> "Billable" -> orientType d <> "Non Billable" ->
  orientPayRatePerHr d = orientPay d /\
  totalOrientationPay d = orientHours d * orientPay d /\
  orientationHourly d = zero /\
  hourlyMargin d =
    hrAfterFee d - payR d * BURDEN - (NH d + bcgHourly d)
    - (startBonusHourly d + completeBonusHourly d + sickHourly d) * BURDEN
    - zero.
Proof.
  intros Hb Hn.
  apply String.eqb_neq in Hb. apply String.eqb_neq in Hn.
  unfold hourlyMargin, orientationHourly, totalOrientationPay, orientPayRatePerHr,
    effectiveOrientPay.
  rewrite Hb, Hn. repeat split; reflexivity.
Qed.

Lemma unlisted_orientation_type_witness :
  let d := page_of [("orient_type", "Shadowing"); ("orient_hours", "8");
                    ("orient_pay", "20"); ("hrs_regular", "36"); ("contract_len", "13")] in
  orientType d <> "Billable" /\ orientType d <> "Non Billable" /\
  totalOrientationPay d = num "160" /\
  orientationHourly d = zero.
Proof.
  cbv zeta.
  set (d := page_of _).
  assert (orientType d <> "Billable") as Hb by (vm_compute; discriminate).
  assert (orientType d <> "Non Billable") as Hn by (vm_compute; discriminate).
  destruct (unlisted_orientation_type d Hb Hn) as (_ & Ht & Ho & _).
  repeat apply conj; [exact Hb|exact Hn|rewrite Ht; vm_compute; reflexivity|exact Ho].
Defined.

(** ** The client selector *)

Lemma entry_Some_elim {A} (P : A -> Prop) k (l : list (string * A)) x :
  Forall (fun kv => P (snd kv)) l -> entry k l = Some x -> P x.
Proof.
  induction 1 as [|[i y] l Hy _ IH]; simpl; [discriminate|].
  destruct (String.eqb k i); [intros [= <-]; exact Hy|exact IH].
Qed.

(** The fees of the table are numbers other than 0. *)
Lemma listed_fee c f : entry c CLIENT_FEES = Some f -> fee_of c = f /\ c <> "".
Proof.
  intros H. split.
  - unfold fee_of. rewrite H.
    apply (entry_Some_elim (fun f => or_zero f = f) c CLIENT_FEES f); [|exact H].
    unfold CLIENT_FEES. repeat (apply Forall_cons; split); [..|by apply Forall_nil];
      reflexivity.
  - intros ->. discriminate H.
Qed.

(** X19. The change listener of the client selector is stricter than a
    pass. For a client of the table it shows the fee that the pass uses,
    sets the title, and leaves every other element as the pass does. For a
    selected value, the empty one included, that is neither in the table
    nor inherited, it throws on a page with a fee line, before any pass
    is run; a pass by itself takes the fee of such a client to be 0, or
    that of SimpliFI for the empty value. *)
Theorem client_change_strict (toLocaleString percent : number -> string)
    (inherited_text : string -> string) (d : document) (clientSel : element) :
  d !! "client" = Some clientSel ->
  (forall f, entry (value clientSel) CLIENT_FEES = Some f ->
     exists d',
       client_change toLocaleString percent inherited_text d = Some d' /\
       fee d = f /\
       textContent <$> d' !! "fee" = (fun _ => "Fee: " ++ percent f) <$> d !! "fee" /\
       textContent <$> d' !! "title" =
         (fun _ => value clientSel ++ " Rate Calculator") <$> d !! "title" /\
       (forall k, k <> "fee" -> k <> "title" ->
          d' !! k = recalc toLocaleString d !! k)) /\
  (entry (value clientSel) CLIENT_FEES = None ->
   existsb (String.eqb (value clientSel)) inherited_keys = false ->
   is_Some (d !! "fee") ->
   client_change toLocaleString percent inherited_text d = None /\
   fee d = if String.eqb (value clientSel) "" then num "0.06" else zero).
Proof.
  intros Hsel. split.
  - intros f Hf. destruct (listed_fee _ _ Hf) as [Hfee Hne].
    set (t := "Fee: " ++ percent f).
    set (title := value clientSel ++ " Rate Calculator").
    set (d2 := setText "title" title
                 (match d !! "fee" with Some _ => setText "fee" t d | None => d end)).
    assert (forall k, d2 !! k =
              (if decide (k = "title") then set_textContent title
               else if decide (k = "fee") then set_textContent t else id) <$> d !! k) as H2.
    { intros k. unfold d2. rewrite lookup_setText.
      assert ((match d !! "fee" with Some _ => setText "fee" t d | None => d end) !! k =
              (if decide (k = "fee") then set_textContent t else id) <$> d !! k) as Hfee'.
      { destruct (d !! "fee") as [e|] eqn:E.
        - rewrite lookup_setText. case_decide; [reflexivity|].
          destruct (d !! k); reflexivity.
        - case_decide as Hk; [subst k; rewrite E; reflexivity|].
          destruct (d !! k); reflexivity. }
      rewrite Hfee'. destruct (decide (k = "title")) as [->|Ht].
      - rewrite decide_False by discriminate. destruct (d !! "title"); reflexivity.
      - reflexivity. }
    assert (same_inputs d d2) as Hin.
    { assert (forall k, k <> "title" -> k <> "fee" -> d2 !! k = d !! k) as Hk.
      { intros k H1 H3. rewrite H2. rewrite !decide_False by assumption.
        destruct (d !! k); reflexivity. }
      unfold same_inputs. rewrite !Hk by discriminate.
      split; [|split; [|split; [|split]]]; try reflexivity.
      intros k Hkin. rewrite Hk; [reflexivity| |]; intros ->; revert Hkin; listed. }
    exists (recalc toLocaleString d2). repeat apply conj.
    + unfold client_change, el, fee_text. rewrite Hsel. cbv zeta.
      unfold d2. destruct (d !! "fee"); [rewrite Hf|]; reflexivity.
    + unfold fee, client, el. rewrite Hsel.
      destruct (String.eqb_spec (value clientSel) ""); [congruence|exact Hfee].
    + rewrite lookup_recalc, patch_unwritten by listed. rewrite H2.
      destruct (d !! "fee"); reflexivity.
    + rewrite lookup_recalc, patch_unwritten by listed. rewrite H2.
      destruct (d !! "title"); reflexivity.
    + intros k H1 H3. rewrite (recalc_same_inputs _ d d2 k Hin), lookup_recalc, H2.
      rewrite !decide_False by assumption. destruct (d !! k); reflexivity.
  - intros Hn Hi [e He]. split.
    + unfold client_change, el, fee_text. rewrite Hsel, He, Hn, Hi. reflexivity.
    + unfold fee, client, el. rewrite Hsel.
      destruct (String.eqb_spec (value clientSel) "") as [E|E]; [reflexivity|].
      unfold fee_of. rewrite Hn, Hi. reflexivity.
Qed.

Lemma client_change_strict_witness :
  page_titled !! "client" = Some (field "SimpliFI") /\
  entry "SimpliFI" CLIENT_FEES = Some (num "0.06") /\
  (exists d', client_change plain_USD plain_percent (fun _ => "") page_titled = Some d' /\
     textContent <$> d' !! "fee" = Some "Fee: 6.00%" /\
     textContent <$> d' !! "title" = Some "SimpliFI Rate Calculator") /\
  page_unlisted_client !! "client" = Some (field "Acme") /\
  client_change plain_USD plain_percent (fun _ => "") page_unlisted_client = None /\
  fee page_unlisted_client = zero.
Proof.
  assert (page_titled !! "client" = Some (field "SimpliFI")) as H1 by (vm_compute; reflexivity).
  assert (entry "SimpliFI" CLIENT_FEES = Some (num "0.06")) as H2 by reflexivity.
  assert (page_unlisted_client !! "client" = Some (field "Acme")) as H3
    by (vm_compute; reflexivity).
  destruct (client_change_strict plain_USD plain_percent (fun _ => "") _ _ H1) as [Hl _].
  destruct (Hl _ H2) as (d' & Hd & _ & Hf & Ht & _).
  destruct (client_change_strict plain_USD plain_percent (fun _ => "") _ _ H3) as [_ Hu].
  destruct Hu as [Hn Hz]; [reflexivity|reflexivity|vm_compute; eauto|].
  repeat apply conj; try assumption.
  exists d'. repeat apply conj; [exact Hd|rewrite Hf|rewrite Ht]; vm_compute; reflexivity.
Defined.
